(** * openkaito: the structured search engine

    A shallow embedding of
    [src/openkaito/search/structured_search_engine.py]
    (class [StructuredSearchEngine]) and the properties of its
    recall -> rank -> truncate pipeline, of its index initialisation and
    of its bulk ingestion path.

    The engine talks to three external collaborators: the Elasticsearch
    client ([self.search_client]), the ranking models and the optional
    Twitter crawler.  They are kept abstract: each one is a record of
    functions over an arbitrary world type [W], and every call the engine
    makes to one of them is recorded, in order, in the outcome of the
    computation.  Calls to [bt.logging] have no effect on the results and
    are left out, except that the expressions they evaluate are kept when
    these can raise. *)

From Stdlib Require Import ZArith List String Ascii Bool Lia.
Import ListNotations.
Set Warnings "-register-all".
Local Open Scope string_scope.
Local Open Scope list_scope.
Local Open Scope Z_scope.

(** ** Python values and the operations the engine applies to them *)

Module Py.

(** JSON-like Python objects.  A [dict] keeps its insertion order, so it is
    an association list whose keys are kept distinct by [dict_set]. *)
Inductive pyval : Type :=
| PNone
| PBool (b : bool)
| PInt (z : Z)
| PStr (s : string)
| PList (l : list pyval)
| PDict (d : list (string * pyval)).

(** Instances of Python's [Exception]: what [except Exception] catches. *)
Inductive exn : Type :=
| KeyError (key : string)
| TypeError (msg : string)
| AttributeError (msg : string)
| Exception (msg : string).

Inductive result (A : Type) : Type :=
| Ok (a : A)
| Raise (e : exn).
Arguments Ok {A} a.
Arguments Raise {A} e.

Definition rbind {A B} (r : result A) (f : A -> result B) : result B :=
  match r with
  | Ok a => f a
  | Raise e => Raise e
  end.

(** [bool(v)]: the truth value Python gives to an object in a test. *)
Definition truthy (v : pyval) : bool :=
  match v with
  | PNone => false
  | PBool b => b
  | PInt z => negb (z =? 0)
  | PStr s => negb (s =? "")%string
  | PList l => match l with [] => false | _ => true end
  | PDict d => match d with [] => false | _ => true end
  end.

Fixpoint dict_get (k : string) (d : list (string * pyval)) : option pyval :=
  match d with
  | [] => None
  | (k', v) :: d' => if (k =? k')%string then Some v else dict_get k d'
  end.

(** [d[k] = v] on a dict: overwrite in place, or add the key at the end. *)
Fixpoint dict_set (k : string) (v : pyval) (d : list (string * pyval))
  : list (string * pyval) :=
  match d with
  | [] => [(k, v)]
  | (k', v') :: d' =>
      if (k =? k')%string then (k, v) :: d' else (k', v') :: dict_set k v d'
  end.

(** [o[k]] with a string key. *)
Definition getitem (o : pyval) (k : string) : result pyval :=
  match o with
  | PDict d =>
      match dict_get k d with
      | Some v => Ok v
      | None => Raise (KeyError k)
      end
  | PList _ => Raise (TypeError "list indices must be integers or slices, not str")
  | PStr _ => Raise (TypeError "string indices must be integers")
  | _ => Raise (TypeError "object is not subscriptable")
  end.

(** [o[k] = v] with a string key; the result is the object after the
    assignment. *)
Definition setitem (o : pyval) (k : string) (v : pyval) : result pyval :=
  match o with
  | PDict d => Ok (PDict (dict_set k v d))
  | _ => Raise (TypeError "object does not support item assignment")
  end.

(** [o.append(v)]; the result is the object after the call. *)
Definition append (o : pyval) (v : pyval) : result pyval :=
  match o with
  | PList l => Ok (PList (l ++ [v]))
  | _ => Raise (AttributeError "object has no attribute 'append'")
  end.

(** [o.get(k)] *)
Definition get (o : pyval) (k : string) : result pyval :=
  match o with
  | PDict d =>
      match dict_get k d with
      | Some v => Ok v
      | None => Ok PNone
      end
  | _ => Raise (AttributeError "object has no attribute 'get'")
  end.

(** [len(o)] *)
Definition len (o : pyval) : result Z :=
  match o with
  | PList l => Ok (Z.of_nat (List.length l))
  | PDict d => Ok (Z.of_nat (List.length d))
  | PStr s => Ok (Z.of_nat (String.length s))
  | _ => Raise (TypeError "object has no len()")
  end.

Fixpoint chars (s : string) : list pyval :=
  match s with
  | EmptyString => []
  | String c s' => PStr (String c EmptyString) :: chars s'
  end.

(** The elements [for x in o] goes through. *)
Definition iter (o : pyval) : result (list pyval) :=
  match o with
  | PList l => Ok l
  | PDict d => Ok (map (fun kv => PStr (fst kv)) d)
  | PStr s => Ok (chars s)
  | _ => Raise (TypeError "object is not iterable")
  end.

(** [l[:n]] on a list: a negative [n] counts from the end. *)
Definition slice_to {A} (l : list A) (n : Z) : list A :=
  if 0 <=? n then firstn (Z.to_nat n) l
  else firstn (List.length l - Z.to_nat (- n))%nat l.

End Py.
Import Py.

Notation "x <~ r ;; k" := (rbind r (fun x => k))
  (at level 61, r at next level, right associativity).

(** ** Requests

    [StructuredSearchSynapse] and [SearchSynapse] are declared in
    [openkaito/protocol.py]; the engine reads the attributes below.  It
    tells the two request shapes apart by the [name] attribute only.  On a
    basic request the last three attributes are never read. *)

Inductive SortType : Type := RELEVANCE | RECENCY.

Record SearchQuery : Type := {
  name : string;
  query_string : string;
  size : Z;
  sort_type : option SortType;
  earlier_than_timestamp : pyval;
  later_than_timestamp : pyval
}.

(** [search_query.sort_type == SortType.RECENCY] *)
Definition is_recency (s : option SortType) : bool :=
  match s with
  | Some RECENCY => true
  | _ => false
  end.

(** [search_query.name == "StructuredSearchSynapse"] *)
Definition is_structured (q : SearchQuery) : bool :=
  (name q =? "StructuredSearchSynapse")%string.

(** The two ranking model objects the engine holds. *)
Inductive model_ref : Type := relevance | recency.

(** The calls the engine makes to its collaborators. *)
Inductive call : Type :=
| IndicesExists (index : string)
| IndicesCreate (index : string) (body : pyval)
| ClientSearch (index : string) (body : pyval)
| ClientBulk (body : pyval) (refresh : bool)
| CrawlerSearch (query : string) (max_size : pyval)
| Rank (model : model_ref) (query : string) (items : list pyval).

Definition is_create (c : call) : bool :=
  match c with IndicesCreate _ _ => true | _ => false end.

(** The ranking models that were asked to rank, in order. *)
Fixpoint rank_calls (cs : list call) : list model_ref :=
  match cs with
  | [] => []
  | Rank m _ _ :: cs' => m :: rank_calls cs'
  | _ :: cs' => rank_calls cs'
  end.

(** ** Computations: world passing, exceptions and the log of calls *)

Section Engine.

Variable W : Type.

Record outcome (A : Type) : Type := {
  res : result A;
  final : W;
  calls : list call
}.
Arguments res {A} o.
Arguments final {A} o.
Arguments calls {A} o.
Arguments Build_outcome {A} res final calls.

Definition M (A : Type) : Type := W -> outcome A.

Definition ret {A} (a : A) : M A :=
  fun w => {| res := Ok a; final := w; calls := [] |}.

Definition bind {A B} (m : M A) (f : A -> M B) : M B :=
  fun w =>
    let o := m w in
    match res o with
    | Ok a =>
        let o' := f a (final o) in
        {| res := res o'; final := final o'; calls := calls o ++ calls o' |}
    | Raise e => {| res := Raise e; final := final o; calls := calls o |}
    end.

(** [try: m  except Exception as e: h e].  What [m] did to the world before
    it raised stays done. *)
Definition try_except {A} (m : M A) (h : exn -> M A) : M A :=
  fun w =>
    let o := m w in
    match res o with
    | Ok a => o
    | Raise e =>
        let o' := h e (final o) in
        {| res := res o'; final := final o'; calls := calls o ++ calls o' |}
    end.

(** A computation that touches no collaborator. *)
Definition lift {A} (r : result A) : M A :=
  fun w => {| res := r; final := w; calls := [] |}.

(** A call to a collaborator, entered in the log. *)
Definition extern {A} (c : call) (f : W -> result A * W) : M A :=
  fun w => {| res := fst (f w); final := snd (f w); calls := [c] |}.

Notation "x <- m ;; k" := (bind m (fun x => k))
  (at level 61, m at next level, right associativity).
Notation "m ;;; k" := (bind m (fun _ => k))
  (at level 61, right associativity).

(** ** The collaborators *)

(** [self.search_client]: the part of the Elasticsearch client in use. *)
Record SearchClient : Type := {
  indices_exists : string -> W -> result bool * W;
  indices_create : string -> pyval -> W -> result pyval * W;
  client_search : string -> pyval -> W -> result pyval * W;
  client_bulk : pyval -> bool -> W -> result pyval * W
}.

(** A ranking model: [rank(query_string, items)]. *)
Record RankingModel : Type := {
  rank : string -> list pyval -> W -> result (list pyval) * W
}.

(** The crawler: [search(query_string, max_size)]. *)
Record TwitterCrawler : Type := {
  crawler_search : string -> pyval -> W -> result pyval * W
}.

(** The attributes [__init__] sets on [self]. *)
Record StructuredSearchEngine : Type := {
  search_client : SearchClient;
  relevance_ranking_model : RankingModel;
  recency_ranking_model : RankingModel;
  recall_size : Z;
  twitter_crawler : option TwitterCrawler
}.

Definition model_of (self : StructuredSearchEngine) (m : model_ref)
  : RankingModel :=
  match m with
  | relevance => relevance_ranking_model self
  | recency => recency_ranking_model self
  end.

(** ** The engine *)

(** The nine fields of a stored tweet, in the order of the projection. *)
Definition twitter_fields : list string :=
  ["id"; "text"; "created_at"; "username"; "url";
   "quote_count"; "reply_count"; "retweet_count"; "favorite_count"].

(** [twitter_doc_mapper(cls, doc)]: the dict display evaluates the nine
    subscripts in order; the first missing key raises. *)
Definition twitter_doc_mapper (doc : pyval) : result pyval :=
  id <~ getitem doc "id" ;;
  text <~ getitem doc "text" ;;
  created_at <~ getitem doc "created_at" ;;
  username <~ getitem doc "username" ;;
  url <~ getitem doc "url" ;;
  quote_count <~ getitem doc "quote_count" ;;
  reply_count <~ getitem doc "reply_count" ;;
  retweet_count <~ getitem doc "retweet_count" ;;
  favorite_count <~ getitem doc "favorite_count" ;;
  Ok (PDict [("id", id);
             ("text", text);
             ("created_at", created_at);
             ("username", username);
             ("url", url);
             ("quote_count", quote_count);
             ("reply_count", reply_count);
             ("retweet_count", retweet_count);
             ("favorite_count", favorite_count)]).

(** The [body] argument of [indices.create] in [init_indices]. *)
Definition index_properties : list (string * pyval) :=
  [("id", PDict [("type", PStr "long")]);
   ("text", PDict [("type", PStr "text")]);
   ("created_at", PDict [("type", PStr "date")]);
   ("username", PDict [("type", PStr "keyword")]);
   ("url", PDict [("type", PStr "text")]);
   ("quote_count", PDict [("type", PStr "long")]);
   ("reply_count", PDict [("type", PStr "long")]);
   ("retweet_count", PDict [("type", PStr "long")]);
   ("favorite_count", PDict [("type", PStr "long")])].

Definition index_body : pyval :=
  PDict [("mappings", PDict [("properties", PDict index_properties)])].

(** [init_indices(self)] *)
Definition init_indices (self : StructuredSearchEngine) : M pyval :=
  let index_name := "twitter" in
  found <- extern (IndicesExists index_name)
                  (indices_exists (search_client self) index_name) ;;
  if negb found then
    extern (IndicesCreate index_name index_body)
           (indices_create (search_client self) index_name index_body) ;;;
    ret PNone
  else ret PNone.

(** [es_query["query"]["bool"]["must"].append(clause)]: the list is reached
    through the two enclosing dicts and changed in place, so the change
    shows in [es_query]. *)
Definition must_append (es_query clause : pyval) : result pyval :=
  q <~ getitem es_query "query" ;;
  b <~ getitem q "bool" ;;
  must <~ getitem b "must" ;;
  must <~ append must clause ;;
  b <~ setitem b "must" must ;;
  q <~ setitem q "bool" b ;;
  setitem es_query "query" q.

(** Lines 105-136 of [recall]: the query sent to the store. *)
Definition recall_query (search_query : SearchQuery) (recall_size : Z)
  : result pyval :=
  let query_string := query_string search_query in
  let es_query :=
    PDict [("query",
            PDict [("bool",
                    PDict [("must",
                            PList [PDict [("query_string",
                                           PDict [("query", PStr query_string);
                                                  ("default_field", PStr "text");
                                                  ("default_operator", PStr "AND")])]])])]);
           ("size", PInt recall_size)] in
  if is_structured search_query then
    let time_filter := PDict [] in
    time_filter <~ (if truthy (earlier_than_timestamp search_query)
                    then setitem time_filter "lte"
                                 (earlier_than_timestamp search_query)
                    else Ok time_filter) ;;
    time_filter <~ (if truthy (later_than_timestamp search_query)
                    then setitem time_filter "gte"
                                 (later_than_timestamp search_query)
                    else Ok time_filter) ;;
    es_query <~ (if truthy time_filter
                 then must_append es_query
                        (PDict [("range", PDict [("created_at", time_filter)])])
                 else Ok es_query) ;;
    if is_recency (sort_type search_query)
    then setitem es_query "sort" (PList [PDict [("created_at", PStr "desc")]])
    else Ok es_query
  else Ok es_query.

(** The [for] loop of [recall], lines 146-149. *)
Fixpoint recall_loop (documents results : list pyval)
  : result (list pyval) :=
  match documents with
  | [] => Ok results
  | document :: documents' =>
      doc <~ getitem document "_source" ;;
      mapped <~ twitter_doc_mapper doc ;;
      recall_loop documents' (results ++ [mapped])
  end.

(** [recall(self, search_query, recall_size)] *)
Definition recall (self : StructuredSearchEngine)
  (search_query : SearchQuery) (recall_size : Z) : M (list pyval) :=
  es_query <- lift (recall_query search_query recall_size) ;;
  try_except
    (response <- extern (ClientSearch "twitter" es_query)
                        (client_search (search_client self) "twitter" es_query) ;;
     hits <- lift (getitem response "hits") ;;
     documents <- lift (getitem hits "hits") ;;
     iterated <- lift (if truthy documents then iter documents else Ok []) ;;
     results <- lift (recall_loop iterated []) ;;
     ret results)
    (fun e => ret []).

(** The ranking model [search] picks, lines 87-95. *)
Definition ranking_model (search_query : SearchQuery) : model_ref :=
  if is_structured search_query && is_recency (sort_type search_query)
  then recency
  else relevance.

(** [search(self, search_query)] *)
Definition search (self : StructuredSearchEngine)
  (search_query : SearchQuery) : M (list pyval) :=
  let result_size := size search_query in
  recalled_items <- recall self search_query (recall_size self) ;;
  let ranking_model := ranking_model search_query in
  results <- extern (Rank ranking_model (query_string search_query)
                          recalled_items)
                    (rank (model_of self ranking_model)
                          (query_string search_query) recalled_items) ;;
  ret (slice_to results result_size).

(** The [for] loop of [crawl_and_index_data], lines 176-191. *)
Fixpoint bulk_loop (processed_docs bulk_body : list pyval)
  : result (list pyval) :=
  match processed_docs with
  | [] => Ok bulk_body
  | doc :: processed_docs' =>
      id <~ getitem doc "id" ;;
      let bulk_body :=
        bulk_body ++ [PDict [("update",
                              PDict [("_index", PStr "twitter");
                                     ("_id", id)])]] in
      let bulk_body :=
        bulk_body ++ [PDict [("doc", doc); ("doc_as_upsert", PBool true)]] in
      bulk_loop processed_docs' bulk_body
  end.

(** [self.twitter_crawler.search]: on [None] the attribute lookup raises. *)
Definition crawler_of (self : StructuredSearchEngine) : result TwitterCrawler :=
  match twitter_crawler self with
  | Some crawler => Ok crawler
  | None => Raise (AttributeError "'NoneType' object has no attribute 'search'")
  end.

(** Lines 161-171 of [crawl_and_index_data]: the crawl.  The test on
    [self.twitter_crawler is None] only logs a warning; control goes on to
    the [try]. *)
Definition crawl (self : StructuredSearchEngine)
  (query_string : string) (max_size : pyval) : M pyval :=
  try_except
    (crawler <- lift (crawler_of self) ;;
     processed_docs <- extern (CrawlerSearch query_string max_size)
                              (crawler_search crawler query_string max_size) ;;
     lift (len processed_docs) ;;;
     ret processed_docs)
    (fun e => ret (PList [])).

(** Lines 173-203 of [crawl_and_index_data]: the bulk write. *)
Definition bulk_index (self : StructuredSearchEngine)
  (processed_docs : pyval) : M pyval :=
  n <- lift (len processed_docs) ;;
  if 0 <? n then
    try_except
      (docs <- lift (iter processed_docs) ;;
       bulk_body <- lift (bulk_loop docs []) ;;
       r <- extern (ClientBulk (PList bulk_body) true)
                   (client_bulk (search_client self) (PList bulk_body) true) ;;
       lift (get r "errors") ;;;
       ret PNone)
      (fun e => ret PNone)
  else ret PNone.

(** [crawl_and_index_data(self, query_string, max_size)] *)
Definition crawl_and_index_data (self : StructuredSearchEngine)
  (query_string : string) (max_size : pyval) : M pyval :=
  processed_docs <- crawl self query_string max_size ;;
  bulk_index self processed_docs.

(** [__init__(self, search_client, relevance_ranking_model,
    twitter_crawler, recall_size)].  [load_dotenv()] does nothing to the
    engine; [RecencyRankingModel()], whose class is in another file, is
    taken as the object it returns.  [init_indices] runs when only
    [self.search_client] is set, the one attribute it reads. *)
Definition __init__ (client : SearchClient)
  (relevance_model recency_model : RankingModel)
  (crawler : option TwitterCrawler) (size : Z) : M StructuredSearchEngine :=
  let self := {| search_client := client;
                 relevance_ranking_model := relevance_model;
                 recency_ranking_model := recency_model;
                 recall_size := size;
                 twitter_crawler := crawler |} in
  init_indices self ;;;
  ret self.

End Engine.

Arguments res {W A} o.
Arguments final {W A} o.
Arguments calls {W A} o.
Arguments Build_outcome {W A} res final calls.
Arguments ret {W A} a w.
Arguments bind {W A B} m f w.
Arguments try_except {W A} m h w.
Arguments lift {W A} r w.
Arguments extern {W A} c f w.
Arguments indices_exists {W} s index w.
Arguments indices_create {W} s index body w.
Arguments client_search {W} s index body w.
Arguments client_bulk {W} s body refresh w.
Arguments rank {W} r query items w.
Arguments crawler_search {W} t query max_size w.
Arguments search_client {W} s.
Arguments relevance_ranking_model {W} s.
Arguments recency_ranking_model {W} s.
Arguments recall_size {W} s.
Arguments twitter_crawler {W} s.
Arguments model_of {W} self m.
Arguments init_indices {W} self w.
Arguments __init__ {W} client relevance_model recency_model crawler size w.
Arguments recall {W} self search_query recall_size w.
Arguments search {W} self search_query w.
Arguments crawler_of {W} self.
Arguments crawl {W} self query_string max_size w.
Arguments bulk_index {W} self processed_docs w.
Arguments crawl_and_index_data {W} self query_string max_size w.

(** ** A small in-memory store, crawler and ranking models

    Stand-ins for the collaborators, to run the engine on concrete
    inputs.  The store keeps the indices that were created and the bulk
    bodies it received; its answers to [search] and [bulk] are fixed when
    the client is built. *)

Module Mock.

Record world : Type := {
  indices : list (string * pyval);
  bulk_bodies : list pyval
}.

Definition empty : world := {| indices := []; bulk_bodies := [] |}.

Definition has_index (index : string) (w : world) : bool :=
  existsb (fun kv => (index =? fst kv)%string) (indices w).

Definition exists_ (index : string) (w : world) : result bool * world :=
  (Ok (has_index index w), w).

Definition create (index : string) (body : pyval) (w : world)
  : result pyval * world :=
  if has_index index w
  then (Raise (Exception "resource_already_exists_exception"), w)
  else (Ok (PDict [("acknowledged", PBool true)]),
        {| indices := indices w ++ [(index, body)];
           bulk_bodies := bulk_bodies w |}).

Definition client (search_response bulk_response : result pyval)
  : SearchClient world :=
  {| indices_exists := exists_;
     indices_create := create;
     client_search := fun _ _ w => (search_response, w);
     client_bulk := fun body _ w =>
       (bulk_response,
        {| indices := indices w; bulk_bodies := bulk_bodies w ++ [body] |}) |}.

(** A ranking model that keeps the order of the candidates. *)
Definition keep_order : RankingModel world :=
  {| rank := fun _ items w => (Ok items, w) |}.

(** A ranking model that puts the candidates in reverse order. *)
Definition reversed : RankingModel world :=
  {| rank := fun _ items w => (Ok (rev items), w) |}.

(** A ranking model whose [rank] raises. *)
Definition failing (e : exn) : RankingModel world :=
  {| rank := fun _ _ w => (Raise e, w) |}.

Definition crawler (response : result pyval) : TwitterCrawler world :=
  {| crawler_search := fun _ _ w => (response, w) |}.

Definition engine (search_response bulk_response : result pyval)
  (crawler : option (TwitterCrawler world)) : StructuredSearchEngine world :=
  {| search_client := client search_response bulk_response;
     relevance_ranking_model := keep_order;
     recency_ranking_model := reversed;
     recall_size := 50;
     twitter_crawler := crawler |}.

Definition tweet (id : Z) (text : string) (created_at : Z) : pyval :=
  PDict [("id", PInt id);
         ("text", PStr text);
         ("created_at", PInt created_at);
         ("username", PStr "alice");
         ("url", PStr "https://x.com/alice/status");
         ("quote_count", PInt 0);
         ("reply_count", PInt 0);
         ("retweet_count", PInt 0);
         ("favorite_count", PInt 0)].

Definition hit (source : pyval) : pyval :=
  PDict [("_index", PStr "twitter"); ("_source", source)].

Definition response (hits : list pyval) : pyval :=
  PDict [("hits", PDict [("hits", PList hits)])].

Definition basic (q : string) (n : Z) : SearchQuery :=
  {| name := "SearchSynapse"; query_string := q; size := n;
     sort_type := None;
     earlier_than_timestamp := PNone; later_than_timestamp := PNone |}.

Definition structured (q : string) (n : Z) (s : option SortType)
  (earlier later : pyval) : SearchQuery :=
  {| name := "StructuredSearchSynapse"; query_string := q; size := n;
     sort_type := s;
     earlier_than_timestamp := earlier; later_than_timestamp := later |}.

(** Three tweets on "alpha", oldest first, and the answer of a store
    that holds them. *)
Definition tweets : list pyval :=
  [tweet 1 "alpha one" 1; tweet 2 "alpha two" 2; tweet 3 "alpha three" 3].

Definition three_hits : pyval := response (map hit tweets).

(** An engine on a store that answers [three_hits], without a crawler. *)
Definition serving : StructuredSearchEngine world :=
  engine (Ok three_hits) (Ok (PDict [("errors", PBool false)])) None.

(** An engine whose store cannot be reached. *)
Definition unreachable : StructuredSearchEngine world :=
  engine (Raise (Exception "ConnectionError"))
         (Raise (Exception "ConnectionError")) None.

(** An engine whose relevance ranking model raises. *)
Definition unranked : StructuredSearchEngine world :=
  {| search_client := client (Ok three_hits) (Ok PNone);
     relevance_ranking_model := failing (Exception "model not loaded");
     recency_ranking_model := reversed;
     recall_size := 50;
     twitter_crawler := None |}.

(** An engine whose crawler finds the three tweets and whose store reports
    errors on the bulk write. *)
Definition crawling : StructuredSearchEngine world :=
  engine (Ok three_hits) (Ok (PDict [("errors", PBool true)]))
         (Some (crawler (Ok (PList tweets)))).

(** A hit whose [_source] has no [text]. *)
Definition textless : pyval :=
  hit (PDict [("id", PInt 4); ("created_at", PInt 4)]).

(** An engine whose store answers two good hits around a bad one. *)
Definition serving_textless : StructuredSearchEngine world :=
  engine (Ok (response [hit (tweet 1 "alpha one" 1); textless;
                        hit (tweet 3 "alpha three" 3)]))
         (Ok PNone) None.

(** A client whose every call raises. *)
Definition offline_client : SearchClient world :=
  {| indices_exists := fun _ w => (Raise (Exception "ConnectionError"), w);
     indices_create := fun _ _ w => (Raise (Exception "ConnectionError"), w);
     client_search := fun _ _ w => (Raise (Exception "ConnectionError"), w);
     client_bulk := fun _ _ w => (Raise (Exception "ConnectionError"), w) |}.

(** A client of a store that refuses to create indices. *)
Definition blocked_client : SearchClient world :=
  {| indices_exists := exists_;
     indices_create :=
       fun _ _ w => (Raise (Exception "cluster_block_exception"), w);
     client_search := fun _ _ w => (Ok three_hits, w);
     client_bulk := fun _ _ w => (Ok PNone, w) |}.

Definition engine_on (c : SearchClient world) : StructuredSearchEngine world :=
  {| search_client := c;
     relevance_ranking_model := keep_order;
     recency_ranking_model := reversed;
     recall_size := 50;
     twitter_crawler := None |}.

(** An engine whose crawler raises. *)
Definition crawl_failing : StructuredSearchEngine world :=
  engine (Ok three_hits) (Ok PNone)
         (Some (crawler (Raise (Exception "rate limited")))).

(** A batch with one document that has no [id], between two that have. *)
Definition idless : pyval := PDict [("text", PStr "alpha two")].

Definition batch_with_idless : list pyval :=
  [tweet 1 "alpha one" 1; idless; tweet 3 "alpha three" 3].

Definition crawling_idless : StructuredSearchEngine world :=
  engine (Ok three_hits) (Ok PNone)
         (Some (crawler (Ok (PList batch_with_idless)))).

(** An engine whose store cannot be reached and whose relevance ranking
    model raises. *)
Definition offline_unranked : StructuredSearchEngine world :=
  {| search_client := offline_client;
     relevance_ranking_model := failing (Exception "model not loaded");
     recency_ranking_model := reversed;
     recall_size := 50;
     twitter_crawler := None |}.

(** A stored document with a field the projection does not keep. *)
Definition stored_tweet : list (string * pyval) :=
  [("lang", PStr "en");
   ("id", PInt 7);
   ("text", PStr "alpha seven");
   ("created_at", PInt 7);
   ("username", PStr "bob");
   ("url", PStr "https://x.com/bob/status");
   ("quote_count", PInt 1);
   ("reply_count", PInt 2);
   ("retweet_count", PInt 3);
   ("favorite_count", PInt 4)].

End Mock.

(** ** Reading a query and a response

    What the statements below say about the query [recall] builds and
    about the response it receives. *)

(** The full-text clause [recall] starts the [must] list with. *)
Definition query_string_clause (q : string) : pyval :=
  PDict [("query_string",
          PDict [("query", PStr q);
                 ("default_field", PStr "text");
                 ("default_operator", PStr "AND")])].

(** The bounds that pass the tests of lines 126 and 128. *)
Definition time_filter (q : SearchQuery) : list (string * pyval) :=
  (if truthy (earlier_than_timestamp q)
   then [("lte", earlier_than_timestamp q)] else [])
  ++ (if truthy (later_than_timestamp q)
      then [("gte", later_than_timestamp q)] else []).

Definition range_clause (bounds : list (string * pyval)) : pyval :=
  PDict [("range", PDict [("created_at", PDict bounds)])].

(** The query in closed form, to compare with [recall_query]. *)
Definition expected_query (q : SearchQuery) (recall_size : Z) : pyval :=
  PDict
    ([("query",
       PDict [("bool",
               PDict [("must",
                       PList (query_string_clause (query_string q)
                              :: if is_structured q
                                    && (truthy (earlier_than_timestamp q)
                                        || truthy (later_than_timestamp q))
                                 then [range_clause (time_filter q)]
                                 else []))])]);
      ("size", PInt recall_size)]
     ++ if is_structured q && is_recency (sort_type q)
        then [("sort", PList [PDict [("created_at", PStr "desc")]])]
        else []).

(** [es_query["query"]["bool"]["must"]] *)
Definition must_clauses (es_query : pyval) : result (list pyval) :=
  q <~ getitem es_query "query" ;;
  b <~ getitem q "bool" ;;
  must <~ getitem b "must" ;;
  iter must.

(** The bounds of a clause [{"range": {"created_at": bounds}}]. *)
Definition created_at_range (clause : pyval) : option (list (string * pyval)) :=
  match getitem clause "range" with
  | Ok r =>
      match getitem r "created_at" with
      | Ok (PDict bounds) => Some bounds
      | _ => None
      end
  | Raise _ => None
  end.

Fixpoint range_filters_of (clauses : list pyval)
  : list (list (string * pyval)) :=
  match clauses with
  | [] => []
  | c :: clauses' =>
      match created_at_range c with
      | Some bounds => bounds :: range_filters_of clauses'
      | None => range_filters_of clauses'
      end
  end.

(** The range filters on [created_at] among the [must] clauses. *)
Definition range_filters (es_query : pyval) : list (list (string * pyval)) :=
  match must_clauses es_query with
  | Ok clauses => range_filters_of clauses
  | Raise _ => []
  end.

(** The bound [k] ("lte" or "gte") the query puts on [created_at], if any. *)
Definition created_at_bound (k : string) (es_query : pyval) : option pyval :=
  match range_filters es_query with
  | bounds :: _ => dict_get k bounds
  | [] => None
  end.

(** A bound is declared when the request gives it a value. *)
Definition declared (v : pyval) : bool :=
  match v with
  | PNone => false
  | _ => true
  end.

(** What the store answers to the query [recall] builds for [q]. *)
Definition store_answer {W} (self : StructuredSearchEngine W)
  (q : SearchQuery) (recall_size : Z) (w : W) : result pyval * W :=
  client_search (search_client self) "twitter"
                (expected_query q recall_size) w.

(** The range filter as bound to the declared bounds of a structured
    request [q]: [lte] is the earlier-than bound when that one is declared,
    [gte] the later-than bound when that one is declared, and there is no
    range filter when neither is. *)
Definition range_filter_of_declared_bounds (q : SearchQuery) (n : Z) : Prop :=
  is_structured q = true ->
  exists es_query,
    recall_query q n = Ok es_query
    /\ (declared (earlier_than_timestamp q) = true ->
        created_at_bound "lte" es_query = Some (earlier_than_timestamp q))
    /\ (declared (later_than_timestamp q) = true ->
        created_at_bound "gte" es_query = Some (later_than_timestamp q))
    /\ (declared (earlier_than_timestamp q) = false ->
        declared (later_than_timestamp q) = false ->
        range_filters es_query = []).

(** The degradation of [search] on a store fault, read without a
    condition on the ranking model: whenever the store's [search] raises on
    the query of the request, [recall] returns the empty list and [search]
    returns the empty list. *)
Definition search_empty_on_store_fault {W} (self : StructuredSearchEngine W)
  (q : SearchQuery) (w : W) : Prop :=
  forall es_query e,
    recall_query q (recall_size self) = Ok es_query ->
    fst (client_search (search_client self) "twitter" es_query w) = Raise e ->
    res (recall self q (recall_size self) w) = Ok []
    /\ res (search self q w) = Ok [].

(** Lines 145-149 of [recall] as one function of the response. *)
Definition response_documents (response : pyval) : result (list pyval) :=
  hits <~ getitem response "hits" ;;
  documents <~ getitem hits "hits" ;;
  iterated <~ (if truthy documents then iter documents else Ok []) ;;
  recall_loop iterated [].

(** The hits of a response, [response["hits"]["hits"]]. *)
Definition response_hits (response : pyval) : result pyval :=
  hits <~ getitem response "hits" ;;
  getitem hits "hits".

(** The bulk body in closed form: for each document, in order, the update
    directive and then the document with [doc_as_upsert]. *)
Definition update_directive (id : pyval) : pyval :=
  PDict [("update", PDict [("_index", PStr "twitter"); ("_id", id)])].

Definition upsert_document (doc : pyval) : pyval :=
  PDict [("doc", doc); ("doc_as_upsert", PBool true)].

Definition id_of (doc : pyval) : pyval :=
  match getitem doc "id" with
  | Ok id => id
  | Raise _ => PNone
  end.

Definition has_id (doc : pyval) : bool :=
  match getitem doc "id" with
  | Ok _ => true
  | Raise _ => false
  end.

Definition upsert_actions (docs : list pyval) : list pyval :=
  flat_map (fun doc => [update_directive (id_of doc); upsert_document doc]) docs.

(** [with_earlier q v] is [q] with [earlier_than_timestamp] set to [v]. *)
Definition with_earlier (q : SearchQuery) (v : pyval) : SearchQuery :=
  {| name := name q; query_string := query_string q; size := size q;
     sort_type := sort_type q;
     earlier_than_timestamp := v;
     later_than_timestamp := later_than_timestamp q |}.

Definition with_later (q : SearchQuery) (v : pyval) : SearchQuery :=
  {| name := name q; query_string := query_string q; size := size q;
     sort_type := sort_type q;
     earlier_than_timestamp := earlier_than_timestamp q;
     later_than_timestamp := v |}.

(** [with_size q n] is [q] with [size] set to [n]. *)
Definition with_size (q : SearchQuery) (n : Z) : SearchQuery :=
  {| name := name q; query_string := query_string q; size := n;
     sort_type := sort_type q;
     earlier_than_timestamp := earlier_than_timestamp q;
     later_than_timestamp := later_than_timestamp q |}.

(** The first of the nine fields a stored document lacks, if any. *)
Definition lacks (source : list (string * pyval)) (field : string) : bool :=
  match dict_get field source with
  | Some _ => false
  | None => true
  end.

Definition first_missing (source : list (string * pyval)) : option string :=
  find (lacks source) twitter_fields.

(** What one hit gives: lines 148-149 of [recall]. *)
Definition project_hit (hit : pyval) : result pyval :=
  doc <~ getitem hit "_source" ;;
  twitter_doc_mapper doc.

(** A dict whose keys are the nine fields, in the order of the projection. *)
Definition nine_fields (item : pyval) : Prop :=
  exists fields, item = PDict fields /\ map fst fields = twitter_fields.


(** ** Facts about the Python operations *)

(** Case analysis on the subscripts of [doc], in the order they are
    evaluated. *)
Ltac each_field doc :=
  repeat match goal with
         | |- context [getitem doc ?k] =>
             destruct (getitem doc k) eqn:?; cbn [rbind];
             [|try discriminate; try (eexists; reflexivity)]
         end.

Lemma slice_to_length {A} (l : list A) (n : Z) :
  0 <= n -> Z.of_nat (List.length (slice_to l n)) <= n.
Proof.
  intros Hn. unfold slice_to.
  destruct (0 <=? n) eqn:E; [|apply Z.leb_gt in E; lia].
  rewrite length_firstn. lia.
Qed.

Lemma slice_to_firstn {A} (l : list A) (n : Z) :
  0 <= n -> slice_to l n = firstn (Z.to_nat n) l.
Proof.
  intros Hn. unfold slice_to.
  destruct (0 <=? n) eqn:E; [reflexivity|apply Z.leb_gt in E; lia].
Qed.

Lemma slice_to_nil {A} (n : Z) : slice_to (@nil A) n = [].
Proof.
  unfold slice_to. destruct (0 <=? n); apply firstn_nil.
Qed.

(** ** The query [recall] builds *)

Lemma recall_query_expected (q : SearchQuery) (n : Z) :
  recall_query q n = Ok (expected_query q n).
Proof.
  unfold recall_query, expected_query, time_filter, range_clause,
    query_string_clause.
  destruct (is_structured q); [|reflexivity].
  destruct (truthy (earlier_than_timestamp q)),
    (truthy (later_than_timestamp q)), (is_recency (sort_type q));
    reflexivity.
Qed.

(** ** One run of [recall] *)

Section Facts.

Context {W : Type}.
Implicit Types (self : StructuredSearchEngine W) (q : SearchQuery) (w : W).

(** [recall] sends exactly one query, and turns whatever goes wrong with
    the answer into the empty list. *)
Lemma recall_run self q n w :
  recall self q n w =
  {| res := Ok match fst (store_answer self q n w) with
               | Ok response =>
                   match response_documents response with
                   | Ok results => results
                   | Raise _ => []
                   end
               | Raise _ => []
               end;
     final := snd (store_answer self q n w);
     calls := [ClientSearch "twitter" (expected_query q n)] |}.
Proof.
  unfold recall, bind, lift. rewrite recall_query_expected. cbn [res final calls].
  unfold try_except, bind, extern, lift, ret, response_documents.
  cbn [res final calls].
  fold (store_answer self q n w).
  destruct (store_answer self q n w) as [[response|e] w1]; cbn [fst snd];
    [|reflexivity].
  destruct (getitem response "hits") as [hits|e]; cbn [rbind res final calls];
    [|reflexivity].
  destruct (getitem hits "hits") as [documents|e]; cbn [rbind res final calls];
    [|reflexivity].
  destruct (if truthy documents then iter documents else Ok [])
    as [iterated|e]; cbn [rbind res final calls]; [|reflexivity].
  destruct (recall_loop iterated []) as [results|e]; reflexivity.
Qed.

Lemma recall_res_ok self q n w :
  exists items, res (recall self q n w) = Ok items.
Proof. rewrite recall_run. eexists. reflexivity. Qed.

(** [search] in terms of the outcome of [recall]. *)
Lemma search_run self q w :
  let o := recall self q (recall_size self) w in
  forall items, res o = Ok items ->
  let r := rank (model_of self (ranking_model q)) (query_string q) items
                (final o) in
  search self q w =
  {| res := rbind (fst r) (fun results => Ok (slice_to results (size q)));
     final := snd r;
     calls := calls o ++ [Rank (ranking_model q) (query_string q) items] |}.
Proof.
  intros o items Hres r. unfold search, bind. fold o. rewrite Hres.
  unfold extern, ret. cbn [res final calls]. fold r.
  destruct (fst r); cbn [rbind]; rewrite ?app_nil_r; reflexivity.
Qed.

(** ** [search]: size of the result, choice of the ranking model, faults *)

(** C1. For a request whose [size] is a non-negative integer, the list
    [search] returns has at most [size] elements: whenever the ranking
    model chosen for the request returns [ranked] on the recalled
    candidates, [search] returns the first [size] elements of [ranked]. *)
Theorem search_length_le_size self q w :
  0 <= size q ->
  (forall results,
      res (search self q w) = Ok results ->
      Z.of_nat (List.length results) <= size q)
  /\ (exists items,
         res (recall self q (recall_size self) w) = Ok items
         /\ forall ranked,
             fst (rank (model_of self (ranking_model q)) (query_string q) items
                       (final (recall self q (recall_size self) w)))
             = Ok ranked ->
             res (search self q w)
             = Ok (firstn (Z.to_nat (size q)) ranked)).
Proof.
  intros Hsize.
  destruct (recall_res_ok self q (recall_size self) w) as [items Hitems].
  pose proof (search_run self q w items Hitems) as Hrun. cbv zeta in Hrun.
  split.
  - intros results Hres. rewrite Hrun in Hres. cbn [res] in Hres.
    destruct (fst (rank _ _ _ _)) as [ranked|e]; cbn [rbind] in Hres;
      [|discriminate].
    injection Hres as <-. now apply slice_to_length.
  - exists items. split; [assumption|].
    intros ranked Hranked. rewrite Hrun. cbn [res]. rewrite Hranked.
    cbn [rbind]. now rewrite slice_to_firstn.
Qed.

Lemma ranking_model_recency q :
  ranking_model q = recency
  <-> name q = "StructuredSearchSynapse" /\ sort_type q = Some RECENCY.
Proof.
  unfold ranking_model, is_structured, is_recency.
  destruct (String.eqb_spec (name q) "StructuredSearchSynapse") as [Hn|Hn];
    cbn [andb].
  - destruct (sort_type q) as [[|]|]; split; intros H;
      try discriminate; try (destruct H; discriminate); auto.
  - split; [discriminate|]. intros [H _]. contradiction.
Qed.

Lemma search_rank_calls self q w :
  rank_calls (calls (search self q w)) = [ranking_model q].
Proof.
  destruct (recall_res_ok self q (recall_size self) w) as [items Hitems].
  rewrite (search_run self q w items Hitems). cbn [calls].
  rewrite recall_run. reflexivity.
Qed.

(** C2. [search] asks the recency ranking model to rank exactly when the
    request's [name] is "StructuredSearchSynapse" and its [sort_type] is
    [RECENCY]; in every other case it asks the relevance ranking model it
    was given.  A request with another name never reaches the recency
    model, whatever its [sort_type]. *)
Theorem search_ranking_model_choice self q w :
  (rank_calls (calls (search self q w)) = [recency]
   <-> name q = "StructuredSearchSynapse" /\ sort_type q = Some RECENCY)
  /\ (rank_calls (calls (search self q w)) = [relevance]
      <-> ~ (name q = "StructuredSearchSynapse" /\ sort_type q = Some RECENCY))
  /\ (name q <> "StructuredSearchSynapse" ->
      rank_calls (calls (search self q w)) = [relevance])
  /\ (forall items,
         res (recall self q (recall_size self) w) = Ok items ->
         res (search self q w)
         = rbind (fst (rank (if is_structured q && is_recency (sort_type q)
                             then recency_ranking_model self
                             else relevance_ranking_model self)
                            (query_string q) items
                            (final (recall self q (recall_size self) w))))
                 (fun results => Ok (slice_to results (size q)))).
Proof.
  rewrite search_rank_calls.
  pose proof (ranking_model_recency q) as Hrec.
  assert (Hcases : ranking_model q = recency \/ ranking_model q = relevance)
    by (destruct (ranking_model q); auto).
  split; [|split; [|split]].
  - split; intros H.
    + apply Hrec. congruence.
    + apply Hrec in H. congruence.
  - split; intros H.
    + intros Hc. apply Hrec in Hc. congruence.
    + destruct Hcases as [Hc|Hc]; [|congruence].
      apply Hrec in Hc. contradiction.
  - intros Hn. destruct Hcases as [Hc|Hc]; [|congruence].
    apply Hrec in Hc. destruct Hc. contradiction.
  - intros items Hitems. rewrite (search_run self q w items Hitems).
    cbn [res]. unfold ranking_model, model_of.
    destruct (is_structured q && is_recency (sort_type q)); reflexivity.
Qed.

(** C3, as the code has it.  [recall] never raises; when the store's
    [search] raises on the query of the request, [recall] returns the empty
    list.  [search] then hands the empty list to the ranking model chosen
    for the request, outside any guard, and returns what that call
    returns, cut to [size]: the empty list when the model returns the
    empty list, the model's exception when the model raises. *)
Theorem recall_store_fault_gives_empty self q w :
  (forall n, exists items, res (recall self q n w) = Ok items)
  /\ (forall n e,
         fst (client_search (search_client self) "twitter"
                            (expected_query q n) w) = Raise e ->
         recall_query q n = Ok (expected_query q n)
         /\ res (recall self q n w) = Ok [])
  /\ (forall e,
         fst (client_search (search_client self) "twitter"
                            (expected_query q (recall_size self)) w)
         = Raise e ->
         let ranked :=
           fst (rank (model_of self (ranking_model q)) (query_string q) []
                     (snd (client_search (search_client self) "twitter"
                             (expected_query q (recall_size self)) w))) in
         res (search self q w)
         = rbind ranked (fun results => Ok (slice_to results (size q)))
         /\ (ranked = Ok [] -> res (search self q w) = Ok [])
         /\ (forall e', ranked = Raise e' ->
                        res (search self q w) = Raise e')).
Proof.
  split; [|split].
  - intros n. apply recall_res_ok.
  - intros n e Hfault. split; [apply recall_query_expected|].
    rewrite recall_run. unfold store_answer. now rewrite Hfault.
  - intros e Hfault ranked.
    assert (Hitems : res (recall self q (recall_size self) w) = Ok []).
    { rewrite recall_run. unfold store_answer. now rewrite Hfault. }
    assert (Hsearch : res (search self q w)
                      = rbind ranked
                              (fun results => Ok (slice_to results (size q)))).
    { rewrite (search_run self q w [] Hitems). cbn [res].
      rewrite recall_run. cbn [final]. reflexivity. }
    split; [exact Hsearch|]. split.
    + intros Hranked. rewrite Hsearch, Hranked. cbn [rbind].
      now rewrite slice_to_nil.
    + intros e' Hranked. rewrite Hsearch, Hranked. reflexivity.
Qed.

(** C7. When the [rank] call of the ranking model chosen for the request
    raises, [search] raises the same exception: nothing in [search]
    catches it. *)
Theorem search_propagates_rank_fault self q w e :
  (forall items,
      res (recall self q (recall_size self) w) = Ok items ->
      fst (rank (model_of self (ranking_model q)) (query_string q) items
                (final (recall self q (recall_size self) w))) = Raise e) ->
  res (search self q w) = Raise e.
Proof.
  intros Hfault.
  destruct (recall_res_ok self q (recall_size self) w) as [items Hitems].
  rewrite (search_run self q w items Hitems). cbn [res].
  now rewrite (Hfault items Hitems).
Qed.

(** ** [recall]: the time bounds and the projection of the hits *)

(** C4, as the code has it. For a structured request the query holds, after the
    full-text clause of the [must] list, one range filter on [created_at]
    whose [lte] is [earlier_than_timestamp] when that value is true in a
    test, and whose [gte] is [later_than_timestamp] when that value is true
    in a test; a bound whose value is false in a test ([None], 0) is left
    out, and when both are the range filter is absent.  The query of a
    basic request never has a range filter. *)
Theorem range_filter_of_truthy_bounds q n :
  exists es_query,
    recall_query q n = Ok es_query
    /\ (is_structured q = true ->
        created_at_bound "lte" es_query
        = (if truthy (earlier_than_timestamp q)
           then Some (earlier_than_timestamp q) else None)
        /\ created_at_bound "gte" es_query
           = (if truthy (later_than_timestamp q)
              then Some (later_than_timestamp q) else None)
        /\ must_clauses es_query
           = Ok (query_string_clause (query_string q)
                 :: map range_clause (range_filters es_query))
        /\ range_filters es_query
           = (if truthy (earlier_than_timestamp q)
                 || truthy (later_than_timestamp q)
              then [time_filter q] else []))
    /\ (is_structured q = false ->
        must_clauses es_query = Ok [query_string_clause (query_string q)]
        /\ range_filters es_query = []).
Proof.
  exists (expected_query q n). split; [apply recall_query_expected|].
  unfold expected_query, time_filter.
  split; intros ->; cbn [andb].
  - destruct (truthy (earlier_than_timestamp q)),
      (truthy (later_than_timestamp q)), (is_recency (sort_type q));
      repeat split; reflexivity.
  - split; reflexivity.
Qed.

(** C9. The bounds are tested for truth, not for presence: a bound whose
    value is false in a test, 0 for one, gives the query, and so the run of
    [recall], that the request without that bound gives, and the query has
    no such bound on [created_at]. *)
Theorem falsy_bound_is_omitted q n :
  (truthy (earlier_than_timestamp q) = false ->
   recall_query q n = recall_query (with_earlier q PNone) n
   /\ created_at_bound "lte" (expected_query q n) = None
   /\ forall self w, recall self q n w = recall self (with_earlier q PNone) n w)
  /\ (truthy (later_than_timestamp q) = false ->
      recall_query q n = recall_query (with_later q PNone) n
      /\ created_at_bound "gte" (expected_query q n) = None
      /\ forall self w, recall self q n w = recall self (with_later q PNone) n w)
  /\ recall_query (with_earlier q (PInt 0)) n
     = recall_query (with_earlier q PNone) n
  /\ recall_query (with_later q (PInt 0)) n
     = recall_query (with_later q PNone) n.
Proof.
  assert (He : truthy (earlier_than_timestamp q) = false ->
               recall_query q n = recall_query (with_earlier q PNone) n).
  { intros H. unfold recall_query, is_structured. cbn. now rewrite H. }
  assert (Hl : truthy (later_than_timestamp q) = false ->
               recall_query q n = recall_query (with_later q PNone) n).
  { intros H. unfold recall_query, is_structured. cbn. now rewrite H. }
  split; [|split; [|split]].
  - intros H. split; [now apply He|]. split.
    + unfold expected_query, time_filter. rewrite H.
      destruct (is_structured q), (truthy (later_than_timestamp q)),
        (is_recency (sort_type q)); reflexivity.
    + intros self w. unfold recall. now rewrite (He H).
  - intros H. split; [now apply Hl|]. split.
    + unfold expected_query, time_filter. rewrite H.
      destruct (is_structured q), (truthy (earlier_than_timestamp q)),
        (is_recency (sort_type q)); reflexivity.
    + intros self w. unfold recall. now rewrite (Hl H).
  - reflexivity.
  - reflexivity.
Qed.

Lemma twitter_doc_mapper_missing source field :
  In field twitter_fields ->
  dict_get field source = None ->
  exists e, twitter_doc_mapper (PDict source) = Raise e.
Proof.
  intros Hin Hmiss. unfold twitter_doc_mapper, getitem.
  repeat match goal with
         | |- context [dict_get ?k source] =>
             lazymatch k with
             | field => fail
             | _ => destruct (dict_get k source) eqn:?;
                    cbn [rbind]; [|eexists; reflexivity]
             end
         end.
  exfalso. cbn in Hin.
  repeat (destruct Hin as [<-|Hin]; [congruence|]). exact Hin.
Qed.

Lemma recall_loop_malformed hit documents :
  In hit documents ->
  (exists e, rbind (getitem hit "_source") twitter_doc_mapper = Raise e) ->
  forall results, exists e, recall_loop documents results = Raise e.
Proof.
  intros Hin [e He]. induction documents as [|d ds IH]; [contradiction|].
  intros results. cbn [recall_loop].
  destruct Hin as [->|Hin].
  - unfold rbind in He |- *.
    destruct (getitem hit "_source"); [|eexists; reflexivity].
    rewrite He. eexists; reflexivity.
  - destruct (getitem d "_source") as [doc|e']; cbn [rbind];
      [|eexists; reflexivity].
    destruct (twitter_doc_mapper doc) as [mapped|e']; cbn [rbind];
      [|eexists; reflexivity].
    now apply IH.
Qed.

(** C10. One hit whose [_source] lacks one of the nine projected fields
    makes [recall] return the empty list, whatever the other hits of the
    response are. *)
Theorem malformed_hit_discards_all self q n w response hits hit source field :
  fst (client_search (search_client self) "twitter" (expected_query q n) w)
  = Ok response ->
  response_hits response = Ok (PList hits) ->
  In hit hits ->
  getitem hit "_source" = Ok (PDict source) ->
  In field twitter_fields ->
  dict_get field source = None ->
  recall_query q n = Ok (expected_query q n)
  /\ res (recall self q n w) = Ok [].
Proof.
  intros Hanswer Hhits Hin Hsource Hfield Hmiss.
  split; [apply recall_query_expected|].
  rewrite recall_run. unfold store_answer. rewrite Hanswer.
  unfold response_documents. unfold response_hits in Hhits.
  destruct (getitem response "hits") as [h|e]; cbn [rbind] in *;
    [|discriminate].
  rewrite Hhits. cbn [rbind].
  destruct hits as [|h0 hs]; [contradiction|].
  cbn [truthy iter rbind].
  destruct (recall_loop_malformed hit (h0 :: hs) Hin) with (results := @nil pyval)
    as [e He].
  - rewrite Hsource. cbn [rbind].
    now apply twitter_doc_mapper_missing with (field := field).
  - now rewrite He.
Qed.

(** ** Ingestion *)

Lemma crawl_without_crawler self query max_size w :
  twitter_crawler self = None ->
  crawl self query max_size w
  = {| res := Ok (PList []); final := w; calls := [] |}.
Proof.
  intros Hnone. unfold crawl, try_except, bind, lift, crawler_of.
  rewrite Hnone. reflexivity.
Qed.

Lemma crawl_with_crawler self query max_size w crawler :
  twitter_crawler self = Some crawler ->
  crawl self query max_size w
  = {| res := Ok match fst (crawler_search crawler query max_size w) with
                 | Ok processed_docs =>
                     match len processed_docs with
                     | Ok _ => processed_docs
                     | Raise _ => PList []
                     end
                 | Raise _ => PList []
                 end;
       final := snd (crawler_search crawler query max_size w);
       calls := [CrawlerSearch query max_size] |}.
Proof.
  intros Hsome. unfold crawl, try_except, bind, lift, extern, ret, crawler_of.
  rewrite Hsome. cbn [res final calls].
  destruct (crawler_search crawler query max_size w) as [[docs|e] w1];
    cbn [fst snd]; [|reflexivity].
  destruct (len docs); reflexivity.
Qed.

(** Whatever the crawl does, what it hands on has a length. *)
Lemma crawl_res_sized self query max_size w :
  exists processed_docs n,
    res (crawl self query max_size w) = Ok processed_docs
    /\ len processed_docs = Ok n.
Proof.
  destruct (twitter_crawler self) as [crawler|] eqn:Hc.
  - rewrite (crawl_with_crawler _ _ _ _ _ Hc). cbn [res].
    destruct (fst (crawler_search crawler query max_size w)) as [docs|e].
    + destruct (len docs) as [n|e] eqn:Hlen.
      * exists docs, n. auto.
      * exists (PList []), 0. auto.
    + exists (PList []), 0. auto.
  - rewrite (crawl_without_crawler _ _ _ _ Hc). exists (PList []), 0. auto.
Qed.

Lemma bulk_index_res self processed_docs w n :
  len processed_docs = Ok n ->
  res (bulk_index self processed_docs w) = Ok PNone.
Proof.
  intros Hlen. unfold bulk_index, bind, lift. rewrite Hlen.
  cbn [res final calls].
  destruct (0 <? n); [|reflexivity].
  unfold try_except, bind, lift, extern, ret. cbn [res final calls].
  destruct (iter processed_docs) as [docs|e]; cbn [res final calls];
    [|reflexivity].
  destruct (bulk_loop docs []) as [bulk_body|e]; cbn [res final calls];
    [|reflexivity].
  destruct (fst (client_bulk _ _ _ _)) as [r|e]; cbn [res final calls];
    [|reflexivity].
  destruct (get r "errors"); reflexivity.
Qed.

Lemma bulk_loop_upsert_actions docs :
  Forall (fun doc => has_id doc = true) docs ->
  forall bulk_body,
    bulk_loop docs bulk_body = Ok (bulk_body ++ upsert_actions docs).
Proof.
  induction 1 as [|doc docs Hid _ IH]; intros bulk_body.
  - cbn. now rewrite app_nil_r.
  - cbn [bulk_loop upsert_actions flat_map].
    unfold has_id in Hid. unfold id_of.
    destruct (getitem doc "id") as [id|e]; [|discriminate].
    cbn [rbind]. rewrite IH. rewrite <- !app_assoc. reflexivity.
Qed.

Lemma bulk_index_calls self docs w :
  docs <> [] ->
  Forall (fun doc => has_id doc = true) docs ->
  calls (bulk_index self (PList docs) w)
  = [ClientBulk (PList (upsert_actions docs)) true]
  /\ final (bulk_index self (PList docs) w)
     = snd (client_bulk (search_client self)
                        (PList (upsert_actions docs)) true w).
Proof.
  intros Hne Hids. unfold bulk_index, bind, lift.
  cbn [len res final calls].
  destruct docs as [|doc docs']; [contradiction|].
  replace (0 <? Z.of_nat (List.length (doc :: docs'))) with true
    by (symmetry; apply Z.ltb_lt; cbn [List.length]; lia).
  unfold try_except, bind, lift, extern, ret. cbn [iter res final calls].
  rewrite (bulk_loop_upsert_actions _ Hids). cbn [app res final calls].
  destruct (fst (client_bulk _ _ _ _)) as [r|e]; cbn [res final calls].
  - destruct (get r "errors"); cbn [res final calls]; auto.
  - auto.
Qed.

(** C5. Without a crawler ([twitter_crawler] is [None]),
    [crawl_and_index_data] returns [None] without raising, makes no call to
    the store, no bulk write among them, and leaves the world as it was. *)
Theorem crawl_without_crawler_is_noop self query max_size w :
  twitter_crawler self = None ->
  crawl_and_index_data self query max_size w
  = {| res := Ok PNone; final := w; calls := [] |}.
Proof.
  intros Hnone. unfold crawl_and_index_data, bind.
  rewrite (crawl_without_crawler _ _ _ _ Hnone). reflexivity.
Qed.

(** C6. [crawl_and_index_data] never raises and returns [None], whatever
    the crawler and the bulk call return or raise.  When the crawler
    returns a non-empty list of documents that have an [id], the engine
    makes one bulk call, with [refresh] set, whose body holds for each
    document, in order, the update directive on index "twitter" keyed by
    the document's [id] and then the document with [doc_as_upsert] set. *)
Theorem crawl_and_index_data_bulk_upsert self query max_size w :
  res (crawl_and_index_data self query max_size w) = Ok PNone
  /\ forall crawler docs,
      twitter_crawler self = Some crawler ->
      fst (crawler_search crawler query max_size w) = Ok (PList docs) ->
      docs <> [] ->
      Forall (fun doc => has_id doc = true) docs ->
      calls (crawl_and_index_data self query max_size w)
      = [CrawlerSearch query max_size;
         ClientBulk (PList (upsert_actions docs)) true]
      /\ final (crawl_and_index_data self query max_size w)
         = snd (client_bulk (search_client self)
                            (PList (upsert_actions docs)) true
                            (snd (crawler_search crawler query max_size w))).
Proof.
  split.
  - destruct (crawl_res_sized self query max_size w)
      as (processed_docs & n & Hcrawl & Hlen).
    unfold crawl_and_index_data, bind. rewrite Hcrawl. cbn [res].
    apply (bulk_index_res _ _ _ _ Hlen).
  - intros crawler docs Hsome Hdocs Hne Hids.
    unfold crawl_and_index_data, bind.
    rewrite (crawl_with_crawler _ _ _ _ _ Hsome). rewrite Hdocs.
    cbn [len res final calls].
    destruct (bulk_index_calls self docs
                (snd (crawler_search crawler query max_size w)) Hne Hids)
      as [Hcalls Hfinal].
    rewrite Hcalls, Hfinal. auto.
Qed.

(** ** Index initialisation *)

Lemma init_indices_present self w :
  fst (indices_exists (search_client self) "twitter" w) = Ok true ->
  init_indices self w
  = {| res := Ok PNone;
       final := snd (indices_exists (search_client self) "twitter" w);
       calls := [IndicesExists "twitter"] |}.
Proof.
  intros Hfound. unfold init_indices, bind, extern, ret.
  cbn [res final calls]. rewrite Hfound. reflexivity.
Qed.

Lemma init_indices_absent self w :
  fst (indices_exists (search_client self) "twitter" w) = Ok false ->
  let w1 := snd (indices_exists (search_client self) "twitter" w) in
  let created := indices_create (search_client self) "twitter" index_body w1 in
  init_indices self w
  = {| res := rbind (fst created) (fun _ => Ok PNone);
       final := snd created;
       calls := [IndicesExists "twitter"; IndicesCreate "twitter" index_body] |}.
Proof.
  intros Hfound w1 created. unfold init_indices, bind, extern, ret.
  cbn [res final calls]. rewrite Hfound. cbn [negb]. fold w1. fold created.
  destruct (fst created); reflexivity.
Qed.

Lemma init_indices_fault self w e :
  fst (indices_exists (search_client self) "twitter" w) = Raise e ->
  init_indices self w
  = {| res := Raise e;
       final := snd (indices_exists (search_client self) "twitter" w);
       calls := [IndicesExists "twitter"] |}.
Proof.
  intros Hfound. unfold init_indices, bind, extern, ret.
  cbn [res final calls]. rewrite Hfound. reflexivity.
Qed.

(** C8. [init_indices] asks the store whether index "twitter" exists and
    creates it only when the store answers no, with the mapping that gives
    the nine fields of the projection their types: [long] for [id] and the
    four counters, [text] for [text] and [url], [date] for [created_at],
    [keyword] for [username].  When the store answers yes it makes no
    create call and returns without raising.  On a store whose existence
    check changes nothing and reports an index once it was created, a
    second run after a first one that returned makes no create call and
    leaves the store as the first run left it. *)
Theorem init_indices_idempotent self w :
  let mapping :=
    PDict [("mappings",
            PDict [("properties",
                    PDict [("id", PDict [("type", PStr "long")]);
                           ("text", PDict [("type", PStr "text")]);
                           ("created_at", PDict [("type", PStr "date")]);
                           ("username", PDict [("type", PStr "keyword")]);
                           ("url", PDict [("type", PStr "text")]);
                           ("quote_count", PDict [("type", PStr "long")]);
                           ("reply_count", PDict [("type", PStr "long")]);
                           ("retweet_count", PDict [("type", PStr "long")]);
                           ("favorite_count",
                            PDict [("type", PStr "long")])])])] in
  (forall index w0, snd (indices_exists (search_client self) index w0) = w0) ->
  (forall index body w0 r,
      fst (indices_create (search_client self) index body w0) = Ok r ->
      fst (indices_exists (search_client self) index
             (snd (indices_create (search_client self) index body w0)))
      = Ok true) ->
  (existsb is_create (calls (init_indices self w)) = true
   <-> fst (indices_exists (search_client self) "twitter" w) = Ok false)
  /\ (fst (indices_exists (search_client self) "twitter" w) = Ok false ->
      calls (init_indices self w)
      = [IndicesExists "twitter"; IndicesCreate "twitter" mapping])
  /\ (forall index body,
         In (IndicesCreate index body) (calls (init_indices self w)) ->
         index = "twitter"
         /\ body = mapping
         /\ exists properties,
             rbind (getitem body "mappings")
                   (fun mappings => getitem mappings "properties")
             = Ok (PDict properties)
             /\ map fst properties = twitter_fields
             /\ List.length properties = 9%nat)
  /\ map fst index_properties = twitter_fields
  /\ List.length twitter_fields = 9%nat
  /\ (fst (indices_exists (search_client self) "twitter" w) = Ok true ->
      init_indices self w
      = {| res := Ok PNone; final := w; calls := [IndicesExists "twitter"] |})
  /\ (res (init_indices self w) = Ok PNone ->
      init_indices self (final (init_indices self w))
      = {| res := Ok PNone;
           final := final (init_indices self w);
           calls := [IndicesExists "twitter"] |}).
Proof.
  intros mapping Hpure Hcreated.
  assert (Hbody : index_body = mapping) by reflexivity.
  split; [|split; [|split; [|split; [|split; [|split]]]]].
  - destruct (fst (indices_exists (search_client self) "twitter" w))
      as [[|]|e] eqn:Hfound.
    + rewrite (init_indices_present _ _ Hfound). cbn. split; discriminate.
    + rewrite (init_indices_absent _ _ Hfound). cbn. split; reflexivity.
    + rewrite (init_indices_fault _ _ _ Hfound). cbn. split; discriminate.
  - intros Hfound. rewrite (init_indices_absent _ _ Hfound). cbn [calls].
    now rewrite Hbody.
  - intros index body Hin.
    assert (Hcall : IndicesCreate index body
                    = IndicesCreate "twitter" index_body).
    { destruct (fst (indices_exists (search_client self) "twitter" w))
        as [[|]|e] eqn:Hfound.
      - rewrite (init_indices_present _ _ Hfound) in Hin. cbn [calls] in Hin.
        destruct Hin as [Hin|[]]. discriminate Hin.
      - rewrite (init_indices_absent _ _ Hfound) in Hin. cbn [calls] in Hin.
        destruct Hin as [Hin|[Hin|[]]]; [discriminate Hin|].
        symmetry. exact Hin.
      - rewrite (init_indices_fault _ _ _ Hfound) in Hin. cbn [calls] in Hin.
        destruct Hin as [Hin|[]]. discriminate Hin. }
    injection Hcall as -> ->.
    split; [reflexivity|]. split; [exact Hbody|].
    eexists. split; [reflexivity|]. split; reflexivity.
  - reflexivity.
  - reflexivity.
  - intros Hfound. rewrite (init_indices_present _ _ Hfound).
    now rewrite Hpure.
  - destruct (fst (indices_exists (search_client self) "twitter" w))
      as [[|]|e] eqn:Hfound.
    + intros _. rewrite (init_indices_present _ _ Hfound). cbn [final].
      rewrite Hpure. rewrite (init_indices_present _ _ Hfound).
      now rewrite Hpure.
    + rewrite (init_indices_absent _ _ Hfound). cbn [res final].
      rewrite Hpure.
      destruct (fst (indices_create (search_client self) "twitter"
                       index_body w)) as [r|e] eqn:Hc; [|discriminate].
      intros _. rewrite (init_indices_present _ _ (Hcreated _ _ _ _ Hc)).
      now rewrite Hpure.
    + rewrite (init_indices_fault _ _ _ Hfound). discriminate.
Qed.

End Facts.

(** ** Runs on the in-memory store *)

Lemma search_length_le_size_witness :
  let q := Mock.structured "alpha" 2 (Some RECENCY) PNone PNone in
  0 <= size q
  /\ (forall results,
         res (search Mock.serving q Mock.empty) = Ok results ->
         Z.of_nat (List.length results) <= size q)
  /\ res (search Mock.serving q Mock.empty)
     = Ok [Mock.tweet 3 "alpha three" 3; Mock.tweet 2 "alpha two" 2].
Proof.
  intros q.
  assert (Hsize : 0 <= size q) by (simpl; lia).
  destruct (search_length_le_size Mock.serving q Mock.empty Hsize)
    as [Hlen (items & Hitems & Hfirst)].
  split; [exact Hsize|]. split; [exact Hlen|].
  vm_compute in Hitems. injection Hitems as <-.
  rewrite (Hfirst (rev Mock.tweets)); reflexivity.
Defined.

Lemma search_ranking_model_choice_witness :
  let q := Mock.basic "alpha" 2 in
  name q <> "StructuredSearchSynapse"
  /\ rank_calls (calls (search Mock.serving q Mock.empty)) = [relevance].
Proof.
  intros q.
  assert (Hname : name q <> "StructuredSearchSynapse")
    by (simpl; discriminate).
  split; [exact Hname|].
  destruct (search_ranking_model_choice Mock.serving q Mock.empty)
    as (_ & _ & Hbasic & _).
  exact (Hbasic Hname).
Defined.

Lemma recall_store_fault_gives_empty_witness :
  let q := Mock.structured "alpha" 2 None PNone PNone in
  fst (client_search (search_client Mock.unreachable) "twitter"
                     (expected_query q 50) Mock.empty)
  = Raise (Exception "ConnectionError")
  /\ res (recall Mock.unreachable q 50 Mock.empty) = Ok []
  /\ res (search Mock.unreachable q Mock.empty) = Ok [].
Proof.
  intros q.
  destruct (recall_store_fault_gives_empty Mock.unreachable q Mock.empty)
    as (_ & Hrecall & Hsearch).
  split; [reflexivity|]. split.
  - apply (Hrecall 50 (Exception "ConnectionError")). reflexivity.
  - destruct (Hsearch (Exception "ConnectionError") eq_refl)
      as (_ & Hempty & _).
    apply Hempty. reflexivity.
Defined.

(** C3 fails as it is written: with a store that cannot be reached and a
    relevance ranking model that raises, [recall] returns the empty list
    and [search] raises. *)
Lemma search_raises_on_store_fault :
  ~ search_empty_on_store_fault Mock.offline_unranked (Mock.basic "alpha" 2)
      Mock.empty.
Proof.
  intros Hclaim.
  destruct (Hclaim (expected_query (Mock.basic "alpha" 2) 50)
                   (Exception "ConnectionError") eq_refl eq_refl)
    as [_ Hsearch].
  vm_compute in Hsearch. discriminate.
Qed.

Lemma offline_unranked_run :
  res (recall Mock.offline_unranked (Mock.basic "alpha" 2) 50 Mock.empty)
  = Ok []
  /\ res (search Mock.offline_unranked (Mock.basic "alpha" 2) Mock.empty)
     = Raise (Exception "model not loaded").
Proof. split; reflexivity. Qed.

Lemma search_propagates_rank_fault_witness :
  let q := Mock.basic "alpha" 2 in
  (forall items,
      res (recall Mock.unranked q 50 Mock.empty) = Ok items ->
      fst (rank (model_of Mock.unranked (ranking_model q)) "alpha" items
                (final (recall Mock.unranked q 50 Mock.empty)))
      = Raise (Exception "model not loaded"))
  /\ res (search Mock.unranked q Mock.empty)
     = Raise (Exception "model not loaded").
Proof.
  intros q.
  assert (Hfault : forall items,
             res (recall Mock.unranked q (recall_size Mock.unranked) Mock.empty)
             = Ok items ->
             fst (rank (model_of Mock.unranked (ranking_model q))
                       (query_string q) items
                       (final (recall Mock.unranked q
                                 (recall_size Mock.unranked) Mock.empty)))
             = Raise (Exception "model not loaded"))
    by (intros items _; reflexivity).
  split; [exact Hfault|].
  exact (search_propagates_rank_fault Mock.unranked q Mock.empty _ Hfault).
Defined.

(** C4 fails as it is written: a structured request that declares the bound
    [earlier_than_timestamp = 0] gets a range filter without [lte]. *)
Lemma declared_zero_bound_is_dropped :
  ~ range_filter_of_declared_bounds
      (Mock.structured "alpha" 10 None (PInt 0) (PInt 5)) 50.
Proof.
  intros Hclaim. destruct (Hclaim eq_refl) as (es_query & Hq & Hlte & _).
  rewrite recall_query_expected in Hq. injection Hq as <-.
  specialize (Hlte eq_refl). vm_compute in Hlte. discriminate.
Qed.

Lemma zero_bound_query :
  recall_query (Mock.structured "alpha" 10 None (PInt 0) (PInt 5)) 50
  = Ok (PDict
          [("query",
            PDict [("bool",
                    PDict [("must",
                            PList [query_string_clause "alpha";
                                   range_clause [("gte", PInt 5)]])])]);
           ("size", PInt 50)]).
Proof. reflexivity. Qed.

Lemma range_filter_of_truthy_bounds_witness :
  let q := Mock.structured "alpha" 10 None (PInt 100) (PInt 5) in
  is_structured q = true
  /\ exists es_query,
      recall_query q 50 = Ok es_query
      /\ created_at_bound "lte" es_query = Some (PInt 100)
      /\ created_at_bound "gte" es_query = Some (PInt 5)
      /\ range_filters es_query = [[("lte", PInt 100); ("gte", PInt 5)]].
Proof.
  intros q.
  destruct (range_filter_of_truthy_bounds q 50) as (es_query & Hq & Hs & _).
  assert (Hstructured : is_structured q = true) by reflexivity.
  destruct (Hs Hstructured) as (Hlte & Hgte & _ & Hrange).
  split; [exact Hstructured|].
  exists es_query. auto.
Defined.

Lemma falsy_bound_is_omitted_witness :
  let q := Mock.structured "alpha" 10 None (PInt 0) (PInt 5) in
  truthy (earlier_than_timestamp q) = false
  /\ recall_query q 50 = recall_query (with_earlier q PNone) 50
  /\ created_at_bound "lte" (expected_query q 50) = None
  /\ recall Mock.serving q 50 Mock.empty
     = recall Mock.serving (with_earlier q PNone) 50 Mock.empty.
Proof.
  intros q.
  assert (Hfalsy : truthy (earlier_than_timestamp q) = false) by reflexivity.
  destruct (@falsy_bound_is_omitted Mock.world q 50) as (Hearlier & _).
  destruct (Hearlier Hfalsy) as (Hquery & Hbound & Hrecall).
  auto.
Defined.

Lemma malformed_hit_discards_all_witness :
  let q := Mock.basic "alpha" 2 in
  In Mock.textless [Mock.hit (Mock.tweet 1 "alpha one" 1); Mock.textless;
                    Mock.hit (Mock.tweet 3 "alpha three" 3)]
  /\ res (recall Mock.serving_textless q 50 Mock.empty) = Ok [].
Proof.
  intros q. split; [simpl; auto|].
  refine (proj2 (malformed_hit_discards_all Mock.serving_textless q 50
                   Mock.empty _ _ Mock.textless
                   [("id", PInt 4); ("created_at", PInt 4)] "text"
                   eq_refl eq_refl _ eq_refl _ eq_refl)).
  - simpl; auto.
  - simpl; auto.
Defined.

Lemma crawl_without_crawler_is_noop_witness :
  twitter_crawler Mock.serving = None
  /\ crawl_and_index_data Mock.serving "alpha" (PInt 20) Mock.empty
     = {| res := Ok PNone; final := Mock.empty; calls := [] |}.
Proof.
  split; [reflexivity|].
  apply (crawl_without_crawler_is_noop Mock.serving "alpha" (PInt 20)
           Mock.empty).
  reflexivity.
Defined.

Lemma crawl_and_index_data_bulk_upsert_witness :
  Mock.tweets <> []
  /\ Forall (fun doc => has_id doc = true) Mock.tweets
  /\ res (crawl_and_index_data Mock.crawling "alpha" (PInt 20) Mock.empty)
     = Ok PNone
  /\ calls (crawl_and_index_data Mock.crawling "alpha" (PInt 20) Mock.empty)
     = [CrawlerSearch "alpha" (PInt 20);
        ClientBulk (PList (upsert_actions Mock.tweets)) true].
Proof.
  assert (Hne : Mock.tweets <> []) by discriminate.
  assert (Hids : Forall (fun doc => has_id doc = true) Mock.tweets)
    by (repeat constructor).
  destruct (crawl_and_index_data_bulk_upsert Mock.crawling "alpha" (PInt 20)
              Mock.empty) as [Hres Hbulk].
  destruct (Hbulk (Mock.crawler (Ok (PList Mock.tweets))) Mock.tweets
              eq_refl eq_refl Hne Hids) as [Hcalls _].
  auto.
Defined.

Lemma mock_exists_pure index (w0 : Mock.world) :
  snd (indices_exists (search_client Mock.serving) index w0) = w0.
Proof. reflexivity. Qed.

Lemma mock_created_exists index body (w0 : Mock.world) r :
  fst (indices_create (search_client Mock.serving) index body w0) = Ok r ->
  fst (indices_exists (search_client Mock.serving) index
         (snd (indices_create (search_client Mock.serving) index body w0)))
  = Ok true.
Proof.
  cbn. unfold Mock.create, Mock.exists_.
  destruct (Mock.has_index index w0) eqn:Hhas; cbn [fst snd].
  - discriminate.
  - intros _. f_equal. unfold Mock.has_index. cbn [Mock.indices].
    rewrite existsb_app. cbn. rewrite String.eqb_refl.
    now rewrite orb_true_r.
Qed.

Lemma init_indices_idempotent_witness :
  let first := init_indices Mock.serving Mock.empty in
  calls first
  = [IndicesExists "twitter";
     IndicesCreate "twitter"
       (PDict [("mappings",
                PDict [("properties",
                        PDict [("id", PDict [("type", PStr "long")]);
                               ("text", PDict [("type", PStr "text")]);
                               ("created_at", PDict [("type", PStr "date")]);
                               ("username",
                                PDict [("type", PStr "keyword")]);
                               ("url", PDict [("type", PStr "text")]);
                               ("quote_count", PDict [("type", PStr "long")]);
                               ("reply_count", PDict [("type", PStr "long")]);
                               ("retweet_count",
                                PDict [("type", PStr "long")]);
                               ("favorite_count",
                                PDict [("type", PStr "long")])])])])]
  /\ res first = Ok PNone
  /\ init_indices Mock.serving (final first)
     = {| res := Ok PNone; final := final first;
          calls := [IndicesExists "twitter"] |}.
Proof.
  intros first.
  destruct (init_indices_idempotent Mock.serving Mock.empty
              mock_exists_pure mock_created_exists)
    as (_ & Habsent & _ & _ & _ & _ & Hsecond).
  split; [apply Habsent; reflexivity|].
  split; [reflexivity|].
  apply Hsecond. reflexivity.
Defined.

(** ** The projection of a stored document *)

Lemma twitter_doc_mapper_shape doc out :
  twitter_doc_mapper doc = Ok out ->
  exists id text created_at username url quotes replies retweets favorites,
    getitem doc "id" = Ok id
    /\ getitem doc "text" = Ok text
    /\ getitem doc "created_at" = Ok created_at
    /\ getitem doc "username" = Ok username
    /\ getitem doc "url" = Ok url
    /\ getitem doc "quote_count" = Ok quotes
    /\ getitem doc "reply_count" = Ok replies
    /\ getitem doc "retweet_count" = Ok retweets
    /\ getitem doc "favorite_count" = Ok favorites
    /\ out = PDict [("id", id); ("text", text); ("created_at", created_at);
                    ("username", username); ("url", url);
                    ("quote_count", quotes); ("reply_count", replies);
                    ("retweet_count", retweets); ("favorite_count", favorites)].
Proof.
  unfold twitter_doc_mapper. each_field doc.
  intros [= <-]. repeat eexists.
Qed.

Lemma getitem_dict_get source k v :
  getitem (PDict source) k = Ok v <-> dict_get k source = Some v.
Proof.
  unfold getitem. destruct (dict_get k source).
  - split; intros [= ->]; reflexivity.
  - split; discriminate.
Qed.

(** X1. On a dict, the projection returns exactly when the nine fields are
    all there; what it returns has the nine fields as its keys, in the
    fixed order, each with the value the document gives it, and nothing of
    the other keys of the document. *)
Theorem twitter_doc_mapper_projects (source : list (string * pyval)) :
  ((exists out, twitter_doc_mapper (PDict source) = Ok out)
   <-> first_missing source = None)
  /\ forall out,
      twitter_doc_mapper (PDict source) = Ok out ->
      exists fields,
        out = PDict fields
        /\ map fst fields = twitter_fields
        /\ (forall field, In field twitter_fields ->
                          dict_get field fields = dict_get field source)
        /\ (forall field, ~ In field twitter_fields ->
                          dict_get field fields = None).
Proof.
  split.
  - unfold twitter_doc_mapper, first_missing, lacks, twitter_fields, getitem.
    cbn [find].
    repeat match goal with
           | |- context [dict_get ?k source] =>
               destruct (dict_get k source) eqn:?; cbn [rbind];
               [|split; [intros [out Hout]; discriminate|discriminate]]
           end.
    split; [reflexivity|]. intros _. eexists. reflexivity.
  - intros out Hout. apply twitter_doc_mapper_shape in Hout.
    destruct Hout as (id & text & created_at & username & url & quotes
                      & replies & retweets & favorites & H1 & H2 & H3 & H4
                      & H5 & H6 & H7 & H8 & H9 & ->).
    apply getitem_dict_get in H1, H2, H3, H4, H5, H6, H7, H8, H9.
    eexists. split; [reflexivity|]. split; [reflexivity|]. split.
    + intros field Hin. cbn in Hin.
      repeat (destruct Hin as [<-|Hin]; [cbn; congruence|]). contradiction.
    + intros field Hout. cbn [dict_get].
      repeat match goal with
             | |- context [(field =? ?k)%string] =>
                 destruct (String.eqb_spec field k) as [->|_];
                 [exfalso; apply Hout; cbn; tauto|]
             end.
      reflexivity.
Qed.

(** X2. Projecting twice is projecting once: what the projection returns
    is a document it maps to itself. *)
Theorem twitter_doc_mapper_idempotent doc out :
  twitter_doc_mapper doc = Ok out ->
  twitter_doc_mapper out = Ok out.
Proof.
  intros Hout. apply twitter_doc_mapper_shape in Hout.
  destruct Hout as (id & text & created_at & username & url & quotes
                    & replies & retweets & favorites & _ & _ & _ & _ & _
                    & _ & _ & _ & _ & ->).
  reflexivity.
Qed.

(** X3. On a dict that lacks some of the nine fields the projection raises
    [KeyError] on the first one missing, in the order of the projection; on
    an object that is not a dict it raises [TypeError]. *)
Theorem twitter_doc_mapper_key_error :
  (forall source field,
      first_missing source = Some field ->
      twitter_doc_mapper (PDict source) = Raise (KeyError field))
  /\ (forall doc,
         (forall source, doc <> PDict source) ->
         exists msg, twitter_doc_mapper doc = Raise (TypeError msg)).
Proof.
  split.
  - intros source field.
    unfold twitter_doc_mapper, first_missing, lacks, twitter_fields, getitem.
    cbn [find].
    repeat match goal with
           | |- context [dict_get ?k source] =>
               destruct (dict_get k source) eqn:?; cbn [rbind];
               [|intros [= <-]; reflexivity]
           end.
    discriminate.
  - intros doc Hdoc. unfold twitter_doc_mapper.
    destruct doc; try (eexists; reflexivity).
    exfalso. now apply (Hdoc d).
Qed.

(** ** What [recall] returns *)

Lemma recall_loop_items hits :
  forall results out,
    recall_loop hits results = Ok out
    <-> exists items,
        out = results ++ items
        /\ Forall2 (fun hit item => project_hit hit = Ok item) hits items.
Proof.
  induction hits as [|hit hits IH]; intros results out; cbn [recall_loop].
  - split.
    + intros [= <-]. exists []. split; [now rewrite app_nil_r|constructor].
    + intros (items & -> & Hall). inversion Hall. now rewrite app_nil_r.
  - split.
    + intros Hloop. unfold rbind in Hloop.
      destruct (getitem hit "_source") as [doc|e] eqn:Hsrc; [|discriminate].
      destruct (twitter_doc_mapper doc) as [mapped|e] eqn:Hmap;
        [|discriminate].
      apply IH in Hloop. destruct Hloop as (items & -> & Hall).
      exists (mapped :: items). split; [now rewrite <- app_assoc|].
      constructor; [|assumption].
      unfold project_hit. rewrite Hsrc. exact Hmap.
    + intros (items & -> & Hall). inversion Hall as [|? item ? rest Hhit Hrest];
        subst.
      unfold project_hit, rbind in Hhit. unfold rbind.
      destruct (getitem hit "_source") as [doc|e]; [|discriminate].
      rewrite Hhit. apply IH. exists rest. split; [|assumption].
      now rewrite <- app_assoc.
Qed.

Lemma project_hit_nine_fields hit item :
  project_hit hit = Ok item -> nine_fields item.
Proof.
  unfold project_hit, rbind.
  destruct (getitem hit "_source") as [doc|e]; [|discriminate].
  intros Hmap. apply twitter_doc_mapper_shape in Hmap.
  destruct Hmap as (id & text & created_at & username & url & quotes
                    & replies & retweets & favorites & _ & _ & _ & _ & _
                    & _ & _ & _ & _ & ->).
  eexists. split; reflexivity.
Qed.

Lemma response_documents_nine_fields response items :
  response_documents response = Ok items -> Forall nine_fields items.
Proof.
  unfold response_documents, rbind.
  destruct (getitem response "hits") as [hits|e]; [|discriminate].
  destruct (getitem hits "hits") as [documents|e]; [|discriminate].
  destruct (if truthy documents then iter documents else Ok [])
    as [iterated|e]; [|discriminate].
  intros Hloop. apply recall_loop_items in Hloop.
  destruct Hloop as (out & -> & Hall). cbn [app].
  induction Hall as [|hit item hits' items' Hhit _ IH]; constructor.
  - exact (project_hit_nine_fields _ _ Hhit).
  - exact IH.
Qed.

Lemma response_documents_of_hits response hits :
  response_hits response = Ok (PList hits) ->
  response_documents response = recall_loop hits [].
Proof.
  unfold response_hits, response_documents, rbind.
  destruct (getitem response "hits") as [h|e]; [|discriminate].
  intros ->. destruct hits; reflexivity.
Qed.

Section MoreFacts.

Context {W : Type}.
Implicit Types (self : StructuredSearchEngine W) (q : SearchQuery) (w : W).

(** X4. When the store answers hits that each have a [_source] with the
    nine fields, [recall] returns their projections, one per hit, in the
    order of the store. *)
Theorem recall_projects_hits self q n w response hits items :
  fst (client_search (search_client self) "twitter" (expected_query q n) w)
  = Ok response ->
  response_hits response = Ok (PList hits) ->
  Forall2 (fun hit item => project_hit hit = Ok item) hits items ->
  recall_query q n = Ok (expected_query q n)
  /\ res (recall self q n w) = Ok items.
Proof.
  intros Hanswer Hhits Hall. split; [apply recall_query_expected|].
  rewrite recall_run. unfold store_answer. rewrite Hanswer.
  rewrite (response_documents_of_hits _ _ Hhits).
  assert (Hloop : recall_loop hits [] = Ok items)
    by (apply recall_loop_items; exists items; auto).
  now rewrite Hloop.
Qed.

(** X5. Whatever the store answers, [recall] returns a list of dicts whose
    keys are exactly the nine fields, in the order of the projection. *)
Theorem recall_items_have_nine_fields self q n w :
  exists items,
    res (recall self q n w) = Ok items /\ Forall nine_fields items.
Proof.
  rewrite recall_run. cbn [res]. eexists. split; [reflexivity|].
  destruct (fst (store_answer self q n w)) as [response|e]; [|constructor].
  destruct (response_documents response) as [items|e] eqn:Hdocs;
    [|constructor].
  exact (response_documents_nine_fields _ _ Hdocs).
Qed.

(** X6. [recall] keeps all the hits or none: when the store answers a list
    of hits, the result is either the projection of every hit, in order,
    or the empty list. *)
Theorem recall_all_or_nothing self q n w response hits :
  fst (client_search (search_client self) "twitter" (expected_query q n) w)
  = Ok response ->
  response_hits response = Ok (PList hits) ->
  exists items,
    res (recall self q n w) = Ok items
    /\ (items = []
        \/ (List.length items = List.length hits
            /\ Forall2 (fun hit item => project_hit hit = Ok item) hits items)).
Proof.
  intros Hanswer Hhits.
  rewrite recall_run. unfold store_answer. rewrite Hanswer. cbn [res].
  rewrite (response_documents_of_hits _ _ Hhits).
  eexists. split; [reflexivity|].
  destruct (recall_loop hits []) as [items|e] eqn:Hloop; [|now left].
  right. apply recall_loop_items in Hloop.
  destruct Hloop as (out & -> & Hall). cbn [app].
  split; [|assumption]. symmetry. exact (Forall2_length Hall).
Qed.

(** ** The query and the calls of [recall] and [search] *)

(** X7. [recall] makes one call, a search on index "twitter", whose query
    asks for [recall_size] hits; the [size] of the request plays no part in
    it. *)
Theorem recall_asks_recall_size self q n w :
  exists es_query,
    recall_query q n = Ok es_query
    /\ calls (recall self q n w) = [ClientSearch "twitter" es_query]
    /\ getitem es_query "size" = Ok (PInt n)
    /\ forall k, recall self (with_size q k) n w = recall self q n w.
Proof.
  exists (expected_query q n). split; [apply recall_query_expected|].
  split; [now rewrite recall_run|]. split; [reflexivity|].
  intros k. unfold recall. reflexivity.
Qed.


(** X9. For a request whose [name] is not "StructuredSearchSynapse" the
    sort type and the time bounds are never read: the query is the
    full-text clause and the size, and two such requests with the same
    [query_string] give the same run of [recall]. *)
Theorem recall_basic_reads_query_string_only q n :
  is_structured q = false ->
  recall_query q n
  = Ok (PDict [("query",
                PDict [("bool",
                        PDict [("must",
                                PList [query_string_clause
                                         (query_string q)])])]);
               ("size", PInt n)])
  /\ forall self w q',
      is_structured q' = false ->
      query_string q' = query_string q ->
      recall self q' n w = recall self q n w.
Proof.
  intros Hbasic. split.
  - unfold recall_query. now rewrite Hbasic.
  - intros self w q' Hbasic' Hsame. unfold recall, recall_query.
    now rewrite Hbasic, Hbasic', Hsame.
Qed.

(** X10. [search] makes two calls and no other: the search on the store and
    then the [rank] of the chosen model on what [recall] returned; on a
    store fault the model is still asked, with no candidate.  The store is
    left as the ranking call leaves it. *)
Theorem search_calls self q w :
  exists es_query items,
    recall_query q (recall_size self) = Ok es_query
    /\ res (recall self q (recall_size self) w) = Ok items
    /\ calls (search self q w)
       = [ClientSearch "twitter" es_query;
          Rank (ranking_model q) (query_string q) items]
    /\ final (search self q w)
       = snd (rank (model_of self (ranking_model q)) (query_string q) items
                   (snd (client_search (search_client self) "twitter"
                                       es_query w)))
    /\ forall e,
        fst (client_search (search_client self) "twitter" es_query w)
        = Raise e ->
        items = [].
Proof.
  destruct (recall_res_ok self q (recall_size self) w) as [items Hitems].
  exists (expected_query q (recall_size self)), items.
  split; [apply recall_query_expected|]. split; [assumption|].
  rewrite (search_run self q w items Hitems). cbn [calls final].
  rewrite recall_run in Hitems |- *. cbn [calls final res] in *.
  unfold store_answer in *. split; [reflexivity|]. split; [reflexivity|].
  intros e He. rewrite He in Hitems. now injection Hitems.
Qed.

(** X11. What [search] returns is a prefix of what the ranking model
    returned, for every [size]; a negative [size] does not give an empty
    list or an error but drops that many elements from the end. *)
Theorem search_returns_prefix self q w ranked :
  (forall items,
      res (recall self q (recall_size self) w) = Ok items ->
      fst (rank (model_of self (ranking_model q)) (query_string q) items
                (final (recall self q (recall_size self) w))) = Ok ranked) ->
  exists results rest,
    res (search self q w) = Ok results
    /\ ranked = results ++ rest
    /\ (size q < 0 ->
        List.length results
        = (List.length ranked - Z.to_nat (- size q))%nat).
Proof.
  intros Hrank.
  destruct (recall_res_ok self q (recall_size self) w) as [items Hitems].
  rewrite (search_run self q w items Hitems). cbn [res].
  rewrite (Hrank items Hitems). cbn [rbind].
  unfold slice_to. destruct (0 <=? size q) eqn:Hs.
  - exists (firstn (Z.to_nat (size q)) ranked),
      (skipn (Z.to_nat (size q)) ranked).
    split; [reflexivity|]. split; [now rewrite firstn_skipn|].
    apply Z.leb_le in Hs. lia.
  - exists (firstn (List.length ranked - Z.to_nat (- size q)) ranked),
      (skipn (List.length ranked - Z.to_nat (- size q)) ranked).
    split; [reflexivity|]. split; [now rewrite firstn_skipn|].
    intros _. rewrite length_firstn. lia.
Qed.

(** ** Ingestion: what is written and what is not *)

Lemma bulk_index_skips self processed_docs w :
  len processed_docs = Ok 0 ->
  bulk_index self processed_docs w
  = {| res := Ok PNone; final := w; calls := [] |}.
Proof.
  intros Hlen. unfold bulk_index, bind, lift. rewrite Hlen. reflexivity.
Qed.

Lemma bulk_loop_no_id doc docs :
  In doc docs -> has_id doc = false ->
  forall bulk_body, exists e, bulk_loop docs bulk_body = Raise e.
Proof.
  intros Hin Hid. induction docs as [|d ds IH]; [contradiction|].
  intros bulk_body. cbn [bulk_loop].
  destruct Hin as [->|Hin].
  - unfold has_id in Hid. destruct (getitem doc "id"); [discriminate|].
    eexists. reflexivity.
  - destruct (getitem d "id") as [id|e]; cbn [rbind];
      [|eexists; reflexivity].
    now apply IH.
Qed.

Lemma bulk_loop_inv docs :
  forall bulk_body out,
    bulk_loop docs bulk_body = Ok out ->
    Forall (fun doc => has_id doc = true) docs
    /\ out = bulk_body ++ upsert_actions docs.
Proof.
  induction docs as [|doc docs IH]; intros bulk_body out; cbn [bulk_loop].
  - intros [= <-]. split; [constructor|]. cbn. now rewrite app_nil_r.
  - destruct (getitem doc "id") as [id|e] eqn:Hid; cbn [rbind];
      [|discriminate].
    intros Hloop. apply IH in Hloop. destruct Hloop as [Hall ->].
    split.
    + constructor; [|assumption]. unfold has_id. now rewrite Hid.
    + cbn [upsert_actions flat_map]. unfold id_of. rewrite Hid.
      rewrite <- !app_assoc. reflexivity.
Qed.

Lemma bulk_index_calls_shape self processed_docs w :
  calls (bulk_index self processed_docs w) = []
  \/ exists body,
      calls (bulk_index self processed_docs w)
      = [ClientBulk (PList body) true].
Proof.
  unfold bulk_index, bind, lift. cbn [res final calls].
  destruct (len processed_docs) as [n|e]; cbn [res final calls]; [|now left].
  destruct (0 <? n); [|now left].
  unfold try_except, bind, lift, extern, ret. cbn [res final calls].
  destruct (iter processed_docs) as [docs|e]; cbn [res final calls];
    [|now left].
  destruct (bulk_loop docs []) as [body|e]; cbn [res final calls];
    [|now left].
  right. exists body.
  destruct (fst (client_bulk _ _ _ _)) as [r|e]; cbn [res final calls];
    [|reflexivity].
  destruct (get r "errors"); reflexivity.
Qed.

(** X12. When the crawler raises, or returns an empty batch, or returns an
    object that has no length, [crawl_and_index_data] returns [None] after
    the one call to the crawler: nothing is sent to the store. *)
Theorem crawl_fault_writes_nothing self query max_size w crawler :
  twitter_crawler self = Some crawler ->
  ((exists e, fst (crawler_search crawler query max_size w) = Raise e)
   \/ (exists batch,
          fst (crawler_search crawler query max_size w) = Ok batch
          /\ (len batch = Ok 0 \/ exists e, len batch = Raise e))) ->
  crawl_and_index_data self query max_size w
  = {| res := Ok PNone;
       final := snd (crawler_search crawler query max_size w);
       calls := [CrawlerSearch query max_size] |}.
Proof.
  intros Hsome Hcases. unfold crawl_and_index_data, bind.
  rewrite (crawl_with_crawler _ _ _ _ _ Hsome). cbn [res final calls].
  destruct Hcases as [[e He]|(batch & Hb & [Hlen|[e Hlen]])].
  - rewrite He. now rewrite bulk_index_skips.
  - rewrite Hb, Hlen. now rewrite (bulk_index_skips _ _ _ Hlen).
  - rewrite Hb, Hlen. now rewrite bulk_index_skips.
Qed.

(** X13. One document without an [id] makes [crawl_and_index_data] drop
    the whole batch: the bulk body is built inside the guarded block, the
    subscript raises there, and no bulk call is made for the other
    documents either. *)
Theorem crawl_drops_batch_without_id self query max_size w crawler docs doc :
  twitter_crawler self = Some crawler ->
  fst (crawler_search crawler query max_size w) = Ok (PList docs) ->
  In doc docs ->
  has_id doc = false ->
  crawl_and_index_data self query max_size w
  = {| res := Ok PNone;
       final := snd (crawler_search crawler query max_size w);
       calls := [CrawlerSearch query max_size] |}.
Proof.
  intros Hsome Hdocs Hin Hid. unfold crawl_and_index_data, bind.
  rewrite (crawl_with_crawler _ _ _ _ _ Hsome). rewrite Hdocs.
  cbn [len res final calls].
  unfold bulk_index, bind, lift. cbn [len res final calls].
  replace (0 <? Z.of_nat (List.length docs)) with true
    by (symmetry; apply Z.ltb_lt; destruct docs; [contradiction|];
        cbn [List.length]; lia).
  unfold try_except, bind, lift, extern, ret. cbn [iter res final calls].
  destruct (bulk_loop_no_id doc docs Hin Hid []) as [e He]. rewrite He.
  reflexivity.
Qed.

(** X14. Whatever its collaborators do, [crawl_and_index_data] makes at
    most one call to the crawler, with the arguments it was given, and
    then at most one bulk call, with [refresh] set; it never creates an
    index, searches the store or ranks. *)
Theorem crawl_and_index_data_calls self query max_size w :
  calls (crawl_and_index_data self query max_size w) = []
  \/ calls (crawl_and_index_data self query max_size w)
     = [CrawlerSearch query max_size]
  \/ exists body,
      calls (crawl_and_index_data self query max_size w)
      = [CrawlerSearch query max_size; ClientBulk (PList body) true].
Proof.
  unfold crawl_and_index_data, bind.
  destruct (twitter_crawler self) as [crawler|] eqn:Hc.
  - rewrite (crawl_with_crawler _ _ _ _ _ Hc). cbn [res final calls].
    match goal with
    | |- context [bulk_index self ?d ?w1] =>
        destruct (bulk_index_calls_shape self d w1) as [H|[body H]];
        rewrite H
    end.
    + right. left. reflexivity.
    + right. right. exists body. reflexivity.
  - rewrite (crawl_without_crawler _ _ _ _ Hc). left. reflexivity.
Qed.

(** X15. The bulk body the loop builds has two entries per document: at
    [2 i] the update directive on index "twitter" keyed by the [id] of
    document [i], at [2 i + 1] that document with [doc_as_upsert]. *)
Theorem bulk_loop_alternates docs body :
  bulk_loop docs [] = Ok body ->
  List.length body = (2 * List.length docs)%nat
  /\ forall i doc,
      nth_error docs i = Some doc ->
      exists id,
        getitem doc "id" = Ok id
        /\ nth_error body (2 * i) = Some (update_directive id)
        /\ nth_error body (2 * i + 1) = Some (upsert_document doc).
Proof.
  intros Hloop. apply bulk_loop_inv in Hloop. destruct Hloop as [Hall ->].
  cbn [app]. split.
  - clear Hall. induction docs as [|d ds IH]; [reflexivity|].
    cbn [upsert_actions flat_map app List.length] in *.
    fold (upsert_actions ds). rewrite IH. lia.
  - induction Hall as [|d ds Hd _ IH]; intros i doc Hnth.
    + destruct i; discriminate.
    + destruct i as [|i].
      * injection Hnth as ->. unfold has_id in Hd.
        destruct (getitem doc "id") as [id|e] eqn:Hid; [|discriminate].
        exists id. split; [reflexivity|].
        cbn. unfold id_of. rewrite Hid. auto.
      * cbn [nth_error] in Hnth.
        destruct (IH i doc Hnth) as (id & Hid & H0 & H1).
        exists id. split; [assumption|].
        replace (2 * S i)%nat with (S (S (2 * i))) by lia.
        replace (S (S (2 * i)) + 1)%nat with (S (S (2 * i + 1))) by lia.
        cbn [upsert_actions flat_map app nth_error].
        fold (upsert_actions ds). auto.
Qed.

(** ** Index initialisation and construction: faults *)

(** X16. [init_indices] guards nothing: an exception of the existence
    check is raised to the caller before any create call, and an exception
    of the create call is raised to the caller too. *)
Theorem init_indices_propagates_faults self w e :
  (fst (indices_exists (search_client self) "twitter" w) = Raise e ->
   res (init_indices self w) = Raise e
   /\ calls (init_indices self w) = [IndicesExists "twitter"])
  /\ (fst (indices_exists (search_client self) "twitter" w) = Ok false ->
      fst (indices_create (search_client self) "twitter" index_body
             (snd (indices_exists (search_client self) "twitter" w)))
      = Raise e ->
      res (init_indices self w) = Raise e
      /\ calls (init_indices self w)
         = [IndicesExists "twitter"; IndicesCreate "twitter" index_body]).
Proof.
  split.
  - intros Hfound. now rewrite (init_indices_fault _ _ _ Hfound).
  - intros Hfound Hcreate. rewrite (init_indices_absent _ _ Hfound).
    cbn [res calls]. now rewrite Hcreate.
Qed.

(** X17. Construction runs [init_indices]: when the store raises there, no
    engine is built and the exception reaches the caller.  When
    construction returns, on a store whose existence check changes nothing
    and reports an index once it was created, the engine holds the
    collaborators it was given, index "twitter" exists, and constructing
    again makes the existence check only. *)
Theorem construction_ensures_index
  (client : SearchClient W) (relevance_model recency_model : RankingModel W)
  (crawler : option (TwitterCrawler W)) (size : Z) w :
  let built := __init__ client relevance_model recency_model crawler size w in
  (forall index w0, snd (indices_exists client index w0) = w0) ->
  (forall index body w0 r,
      fst (indices_create client index body w0) = Ok r ->
      fst (indices_exists client index
             (snd (indices_create client index body w0))) = Ok true) ->
  (forall e,
      fst (indices_exists client "twitter" w) = Raise e ->
      res built = Raise e)
  /\ (forall e,
         fst (indices_exists client "twitter" w) = Ok false ->
         fst (indices_create client "twitter" index_body w) = Raise e ->
         res built = Raise e)
  /\ (forall self,
         res built = Ok self ->
         self = {| search_client := client;
                   relevance_ranking_model := relevance_model;
                   recency_ranking_model := recency_model;
                   recall_size := size;
                   twitter_crawler := crawler |}
         /\ fst (indices_exists client "twitter" (final built)) = Ok true
         /\ calls (__init__ client relevance_model recency_model crawler size
                            (final built))
            = [IndicesExists "twitter"]).
Proof.
  intros built Hpure Hcreated.
  set (self0 := {| search_client := client;
                   relevance_ranking_model := relevance_model;
                   recency_ranking_model := recency_model;
                   recall_size := size;
                   twitter_crawler := crawler |}).
  assert (Hbuilt : forall w1,
             __init__ client relevance_model recency_model crawler size w1
             = bind (init_indices self0) (fun _ => ret self0) w1)
    by reflexivity.
  assert (Hpresent : forall w1,
             fst (indices_exists client "twitter" w1) = Ok true ->
             __init__ client relevance_model recency_model crawler size w1
             = {| res := Ok self0; final := w1;
                  calls := [IndicesExists "twitter"] |}).
  { intros w1 Hfound. rewrite Hbuilt. unfold bind.
    rewrite (init_indices_present self0 w1 Hfound). cbn [res final calls].
    unfold ret. cbn [res final calls search_client self0]. now rewrite Hpure. }
  unfold built. split; [|split].
  - intros e Hfound. rewrite Hbuilt. unfold bind.
    now rewrite (init_indices_fault self0 w e Hfound).
  - intros e Hfound Hcreate. rewrite Hbuilt. unfold bind.
    rewrite (init_indices_absent self0 w Hfound). cbn [res search_client self0].
    rewrite Hpure, Hcreate. reflexivity.
  - intros self.
    destruct (fst (indices_exists client "twitter" w)) as [[|]|e] eqn:Hfound.
    + rewrite (Hpresent w Hfound). cbn [res final]. intros [= <-].
      split; [reflexivity|]. split; [assumption|].
      now rewrite (Hpresent w Hfound).
    + rewrite Hbuilt. unfold bind.
      rewrite (init_indices_absent self0 w Hfound).
      cbn [res final calls search_client self0]. rewrite Hpure.
      destruct (fst (indices_create client "twitter" index_body w))
        as [r|e] eqn:Hcreate; cbn [rbind]; [|discriminate].
      unfold ret. cbn [res final]. intros [= <-].
      split; [reflexivity|].
      pose proof (Hcreated _ _ _ _ Hcreate) as Hnow.
      split; [assumption|]. now rewrite (Hpresent _ Hnow).
    + rewrite Hbuilt. unfold bind.
      rewrite (init_indices_fault self0 w e Hfound). discriminate.
Qed.

End MoreFacts.

(** ** More runs on the in-memory store *)

Lemma twitter_doc_mapper_projects_witness :
  first_missing Mock.stored_tweet = None
  /\ exists fields,
      twitter_doc_mapper (PDict Mock.stored_tweet) = Ok (PDict fields)
      /\ map fst fields = twitter_fields
      /\ dict_get "username" fields = Some (PStr "bob")
      /\ dict_get "lang" fields = None.
Proof.
  destruct (twitter_doc_mapper_projects Mock.stored_tweet) as [Hiff Hshape].
  assert (Hnone : first_missing Mock.stored_tweet = None) by reflexivity.
  destruct (proj2 Hiff Hnone) as [out Hout].
  destruct (Hshape out Hout) as (fields & -> & Hkeys & Hin & Hnot).
  split; [exact Hnone|]. exists fields. split; [exact Hout|].
  split; [exact Hkeys|]. split.
  - rewrite (Hin "username"); [reflexivity|simpl; tauto].
  - apply Hnot. simpl. intros H.
    repeat (destruct H as [H|H]; [discriminate H|]). exact H.
Defined.

Lemma twitter_doc_mapper_idempotent_witness :
  twitter_doc_mapper (PDict Mock.stored_tweet)
  = Ok (PDict (tl Mock.stored_tweet))
  /\ twitter_doc_mapper (PDict (tl Mock.stored_tweet))
     = Ok (PDict (tl Mock.stored_tweet)).
Proof.
  assert (Hout : twitter_doc_mapper (PDict Mock.stored_tweet)
                 = Ok (PDict (tl Mock.stored_tweet))) by reflexivity.
  split; [exact Hout|].
  exact (twitter_doc_mapper_idempotent _ _ Hout).
Defined.

Lemma twitter_doc_mapper_key_error_witness :
  first_missing [("id", PInt 4); ("created_at", PInt 4)] = Some "text"
  /\ twitter_doc_mapper (PDict [("id", PInt 4); ("created_at", PInt 4)])
     = Raise (KeyError "text")
  /\ exists msg, twitter_doc_mapper (PStr "tweet") = Raise (TypeError msg).
Proof.
  destruct twitter_doc_mapper_key_error as [Hkey Htype].
  assert (Hfirst : first_missing [("id", PInt 4); ("created_at", PInt 4)]
                   = Some "text") by reflexivity.
  split; [exact Hfirst|]. split; [exact (Hkey _ _ Hfirst)|].
  apply Htype. intros source. discriminate.
Defined.

Lemma recall_projects_hits_witness :
  let q := Mock.basic "alpha" 2 in
  Forall2 (fun hit item => project_hit hit = Ok item)
          (map Mock.hit Mock.tweets) Mock.tweets
  /\ res (recall Mock.serving q 50 Mock.empty) = Ok Mock.tweets.
Proof.
  intros q.
  assert (Hall : Forall2 (fun hit item => project_hit hit = Ok item)
                         (map Mock.hit Mock.tweets) Mock.tweets)
    by (repeat constructor).
  split; [exact Hall|].
  exact (proj2 (recall_projects_hits Mock.serving q 50 Mock.empty
                  Mock.three_hits (map Mock.hit Mock.tweets) Mock.tweets
                  eq_refl eq_refl Hall)).
Defined.

Lemma recall_all_or_nothing_witness :
  let q := Mock.basic "alpha" 2 in
  exists items,
    res (recall Mock.serving_textless q 50 Mock.empty) = Ok items
    /\ (items = []
        \/ (List.length items = 3%nat
            /\ Forall2 (fun hit item => project_hit hit = Ok item)
                 [Mock.hit (Mock.tweet 1 "alpha one" 1); Mock.textless;
                  Mock.hit (Mock.tweet 3 "alpha three" 3)] items)).
Proof.
  intros q.
  exact (recall_all_or_nothing Mock.serving_textless q 50 Mock.empty
           _ _ eq_refl eq_refl).
Defined.

Lemma recall_basic_reads_query_string_only_witness :
  let q := Mock.basic "alpha" 2 in
  let q' := {| name := "SearchSynapse"; query_string := "alpha"; size := 9;
               sort_type := Some RECENCY;
               earlier_than_timestamp := PInt 100;
               later_than_timestamp := PInt 5 |} in
  is_structured q = false
  /\ is_structured q' = false
  /\ recall Mock.serving q' 50 Mock.empty = recall Mock.serving q 50 Mock.empty.
Proof.
  intros q q'.
  assert (Hq : is_structured q = false) by reflexivity.
  assert (Hq' : is_structured q' = false) by reflexivity.
  split; [exact Hq|]. split; [exact Hq'|].
  exact (proj2 (@recall_basic_reads_query_string_only Mock.world q 50 Hq)
           Mock.serving Mock.empty q' Hq' eq_refl).
Defined.

Lemma search_calls_witness :
  let q := Mock.structured "alpha" 2 (Some RECENCY) PNone PNone in
  exists es_query,
    recall_query q 50 = Ok es_query
    /\ calls (search Mock.unreachable q Mock.empty)
       = [ClientSearch "twitter" es_query; Rank recency "alpha" []].
Proof.
  intros q.
  destruct (search_calls Mock.unreachable q Mock.empty)
    as (es_query & items & Hq & _ & Hcalls & _ & Hfault).
  exists es_query. split; [exact Hq|].
  rewrite Hcalls. rewrite (Hfault (Exception "ConnectionError")).
  - reflexivity.
  - rewrite recall_query_expected in Hq. injection Hq as <-. reflexivity.
Defined.

Lemma search_returns_prefix_witness :
  let q := Mock.basic "alpha" (-1) in
  size q < 0
  /\ exists results rest,
      res (search Mock.serving q Mock.empty) = Ok results
      /\ Mock.tweets = results ++ rest
      /\ List.length results = 2%nat.
Proof.
  intros q.
  assert (Hneg : size q < 0) by (simpl; lia).
  assert (Hrank : forall items,
             res (recall Mock.serving q (recall_size Mock.serving) Mock.empty)
             = Ok items ->
             fst (rank (model_of Mock.serving (ranking_model q))
                       (query_string q) items
                       (final (recall Mock.serving q
                                 (recall_size Mock.serving) Mock.empty)))
             = Ok Mock.tweets)
    by (intros items [= <-]; reflexivity).
  destruct (search_returns_prefix Mock.serving q Mock.empty Mock.tweets Hrank)
    as (results & rest & Hres & Happ & Hlen).
  split; [exact Hneg|]. exists results, rest.
  split; [exact Hres|]. split; [exact Happ|]. exact (Hlen Hneg).
Defined.

Lemma crawl_fault_writes_nothing_witness :
  fst (crawler_search (Mock.crawler (Raise (Exception "rate limited")))
                      "alpha" (PInt 20) Mock.empty)
  = Raise (Exception "rate limited")
  /\ crawl_and_index_data Mock.crawl_failing "alpha" (PInt 20) Mock.empty
     = {| res := Ok PNone; final := Mock.empty;
          calls := [CrawlerSearch "alpha" (PInt 20)] |}.
Proof.
  split; [reflexivity|].
  apply (crawl_fault_writes_nothing Mock.crawl_failing "alpha" (PInt 20)
           Mock.empty (Mock.crawler (Raise (Exception "rate limited")))).
  - reflexivity.
  - left. exists (Exception "rate limited"). reflexivity.
Defined.

Lemma crawl_drops_batch_without_id_witness :
  In Mock.idless Mock.batch_with_idless
  /\ has_id Mock.idless = false
  /\ crawl_and_index_data Mock.crawling_idless "alpha" (PInt 20) Mock.empty
     = {| res := Ok PNone; final := Mock.empty;
          calls := [CrawlerSearch "alpha" (PInt 20)] |}.
Proof.
  assert (Hin : In Mock.idless Mock.batch_with_idless) by (simpl; tauto).
  split; [exact Hin|]. split; [reflexivity|].
  apply (crawl_drops_batch_without_id Mock.crawling_idless "alpha" (PInt 20)
           Mock.empty (Mock.crawler (Ok (PList Mock.batch_with_idless)))
           Mock.batch_with_idless Mock.idless);
    [reflexivity|reflexivity|exact Hin|reflexivity].
Defined.

Lemma bulk_loop_alternates_witness :
  bulk_loop Mock.tweets [] = Ok (upsert_actions Mock.tweets)
  /\ List.length (upsert_actions Mock.tweets) = 6%nat
  /\ nth_error (upsert_actions Mock.tweets) 4
     = Some (update_directive (PInt 3)).
Proof.
  assert (Hloop : bulk_loop Mock.tweets [] = Ok (upsert_actions Mock.tweets))
    by reflexivity.
  destruct (bulk_loop_alternates _ _ Hloop) as [Hlen Hnth].
  split; [exact Hloop|]. split; [exact Hlen|].
  destruct (Hnth 2%nat (Mock.tweet 3 "alpha three" 3) eq_refl)
    as (id & Hid & Hupdate & _).
  injection Hid as <-. exact Hupdate.
Defined.

Lemma init_indices_propagates_faults_witness :
  res (init_indices (Mock.engine_on Mock.offline_client) Mock.empty)
  = Raise (Exception "ConnectionError")
  /\ res (init_indices (Mock.engine_on Mock.blocked_client) Mock.empty)
     = Raise (Exception "cluster_block_exception")
  /\ calls (init_indices (Mock.engine_on Mock.blocked_client) Mock.empty)
     = [IndicesExists "twitter"; IndicesCreate "twitter" index_body].
Proof.
  split.
  - apply (proj1 (init_indices_propagates_faults
                    (Mock.engine_on Mock.offline_client) Mock.empty
                    (Exception "ConnectionError"))).
    reflexivity.
  - apply (proj2 (init_indices_propagates_faults
                    (Mock.engine_on Mock.blocked_client) Mock.empty
                    (Exception "cluster_block_exception")));
      reflexivity.
Defined.

Lemma construction_ensures_index_witness :
  let built := __init__ (search_client Mock.serving) Mock.keep_order
                        Mock.reversed None 50 Mock.empty in
  res built = Ok Mock.serving
  /\ fst (indices_exists (search_client Mock.serving) "twitter" (final built))
     = Ok true
  /\ calls (__init__ (search_client Mock.serving) Mock.keep_order
                     Mock.reversed None 50 (final built))
     = [IndicesExists "twitter"].
Proof.
  intros built.
  assert (Hres : res built = Ok Mock.serving) by reflexivity.
  destruct (construction_ensures_index (search_client Mock.serving)
              Mock.keep_order Mock.reversed None 50 Mock.empty
              mock_exists_pure mock_created_exists)
    as (_ & _ & Hbuilt).
  destruct (Hbuilt Mock.serving Hres) as (_ & Hexists & Hagain).
  split; [exact Hres|]. split; [exact Hexists|exact Hagain].
Defined.
